(** * LocalRunManager: the run registry of a CodaLab worker

    A shallow embedding of [codalab/worker/local_run/local_run_manager.py]
    and proofs about its registry operations, its CPU/GPU allocator, its
    snapshot round trip and its shutdown protocol.

    Python values are modelled as follows.
    - [int] is [Z]; [str] is [string]; [None]-able fields are [option].
    - a [dict] keyed by strings is an association list in insertion order
      (module [PyDict]); [d[k] = v] overwrites in place or appends.
    - a [set] of strings is the list of its elements in iteration order.
      CPython does not promise any particular order, so the two set
      operations the source uses are an interface ([PySetImpl]) with the
      laws of sets; the proofs use the laws only.
    - a raised exception is the [Raise] branch of [result].
    - everything outside the class (Docker, the commit file, the file
      system, the clock, the run state machine) is explicit state or a
      Section variable. *)

From Stdlib Require Import ZArith Lia Ascii.
From stdpp Require Import base option list strings pretty.

Local Open Scope string_scope.
Local Open Scope list_scope.
Local Open Scope Z_scope.

(** ** Exceptions and results *)

Inductive exn : Type :=
| KeyError (key : string)          (* d[k] on a missing key *)
| TypeError                        (* an operand was None *)
| ValueError                       (* docker-py: resource id is not a str *)
| Exception (msg : string)         (* raise Exception(msg) *)
| NotFound                         (* docker.errors.NotFound *)
| NullResource                     (* docker.errors.NullResource *)
| OSError (msg : string).          (* open() failed *)

Inductive result (A : Type) : Type :=
| Ok (a : A)
| Raise (e : exn).
Arguments Ok {A} a.
Arguments Raise {A} e.

Definition result_bind {A B} (r : result A) (k : A → result B) : result B :=
  match r with
  | Ok a => k a
  | Raise e => Raise e
  end.

Notation "'try!' x ← r ; k" := (result_bind r (λ x, k))
  (at level 20, x pattern, r at level 100, k at level 200, only parsing).

Definition is_Ok {A} (r : result A) : Prop :=
  match r with Ok _ => True | Raise _ => False end.

Definition raises {A} (r : result A) : Prop :=
  match r with Ok _ => False | Raise _ => True end.

(** ** Python dictionaries with string keys *)

Module PyDict.
Section dict.
Context {V : Type}.

Definition dict : Type := list (string * V).

(** [d.get(k)]; [d[k]] is [getitem]. *)
Fixpoint dict_get (d : dict) (k : string) : option V :=
  match d with
  | [] => None
  | (k', v) :: d' => if decide (k' = k) then Some v else dict_get d' k
  end.

Definition getitem (d : dict) (k : string) : result V :=
  match dict_get d k with
  | Some v => Ok v
  | None => Raise (KeyError k)
  end.

(** [k in d] *)
Definition dict_contains (d : dict) (k : string) : bool :=
  match dict_get d k with Some _ => true | None => false end.

(** [d[k] = v]: an existing key keeps its position, a new key goes last. *)
Fixpoint dict_set (d : dict) (k : string) (v : V) : dict :=
  match d with
  | [] => [(k, v)]
  | (k', v') :: d' =>
      if decide (k' = k) then (k', v) :: d' else (k', v') :: dict_set d' k v
  end.

Definition dict_keys (d : dict) : list string := d.*1.
Definition dict_values (d : dict) : list V := d.*2.

(** [{k: v for k, v in d.items() if p(v)}] *)
Definition dict_filter (p : V → bool) (d : dict) : dict :=
  filter (λ kv, p kv.2 = true) d.

(** A dictionary holds each key once. *)
Definition dict_wf (d : dict) : Prop := NoDup (dict_keys d).
End dict.
Arguments dict V : clear implicits.
End PyDict.
Export PyDict.

(** ** [posixpath]: [os.path.join] and [os.path.normpath]

    [os.path.realpath] reads the symbolic links of the host and is a
    Section variable where it is used. *)

Module PosixPath.

Definition sep : ascii := "/"%char.

Definition startswith_sep (s : string) : bool :=
  match s with
  | String c _ => bool_decide (c = sep)
  | EmptyString => false
  end.

Fixpoint endswith_sep (s : string) : bool :=
  match s with
  | EmptyString => false
  | String c EmptyString => bool_decide (c = sep)
  | String _ s' => endswith_sep s'
  end.

(** [os.path.join(a, b)] *)
Definition join (a b : string) : string :=
  if startswith_sep b then b
  else if bool_decide (a = "") || endswith_sep a then a +:+ b
  else a +:+ "/" +:+ b.

(** [path.split('/')] *)
Fixpoint split_sep (s : string) : list string :=
  match s with
  | EmptyString => [""]
  | String c s' =>
      if bool_decide (c = sep) then "" :: split_sep s'
      else match split_sep s' with
           | [] => [String c ""]
           | w :: ws => String c w :: ws
           end
  end.

(** ['/'.join(comps)] *)
Fixpoint join_sep (comps : list string) : string :=
  match comps with
  | [] => ""
  | [c] => c
  | c :: cs => c +:+ "/" +:+ join_sep cs
  end.

(** The loop of [normpath]; [new_comps] is kept reversed. *)
Fixpoint norm_comps (initial_slashes : bool) (comps new_comps : list string)
  : list string :=
  match comps with
  | [] => rev new_comps
  | comp :: comps' =>
      if bool_decide (comp = "") || bool_decide (comp = ".") then
        norm_comps initial_slashes comps' new_comps
      else if negb (bool_decide (comp = ".."))
              || (negb initial_slashes && bool_decide (new_comps = []))
              || bool_decide (head new_comps = Some "..") then
        norm_comps initial_slashes comps' (comp :: new_comps)
      else
        norm_comps initial_slashes comps' (tail new_comps)
  end.

(** How many leading separators [normpath] keeps: 0, 1 or 2. *)
Definition initial_slashes (path : string) : nat :=
  match path with
  | String a (String b (String c _)) =>
      if bool_decide (a = sep) then
        if bool_decide (b = sep) && negb (bool_decide (c = sep)) then 2%nat
        else 1%nat
      else 0%nat
  | String a (String b EmptyString) =>
      if bool_decide (a = sep) then
        if bool_decide (b = sep) then 2%nat else 1%nat
      else 0%nat
  | String a EmptyString => if bool_decide (a = sep) then 1%nat else 0%nat
  | EmptyString => 0%nat
  end.

(** [os.path.normpath(path)] *)
Definition normpath (path : string) : string :=
  if bool_decide (path = "") then "."
  else
    let n := initial_slashes path in
    let comps := norm_comps (bool_decide (n ≠ 0%nat)) (split_sep path) [] in
    let p := join_sep comps in
    let p := match n with
             | 0%nat => p
             | 1%nat => "/" +:+ p
             | _ => "//" +:+ p
             end in
    if bool_decide (p = "") then "." else p.

End PosixPath.

(** ** Python sets of strings *)

(** The elements in iteration order: [list(s)] is the list itself and
    [len(s)] its length. *)
Definition pyset : Type := list string.

Class PySetImpl : Type := {
  (** [set(iterable)] *)
  set_of : list string → pyset;
  (** [s -= t], returning the updated [s] *)
  set_isub : pyset → pyset → pyset;
  set_of_NoDup : ∀ l, NoDup (set_of l);
  set_of_elem : ∀ l x, x ∈ set_of l ↔ x ∈ l;
  set_isub_NoDup : ∀ s t, NoDup s → NoDup (set_isub s t);
  set_isub_elem : ∀ s t x, x ∈ set_isub s t ↔ x ∈ s ∧ x ∉ t;
}.

(** One implementation: insertion order, as a table without collisions
    would give. *)
Definition ordered_set_of (l : list string) : pyset := remove_dups l.
Definition ordered_set_isub (s t : pyset) : pyset := list_difference s t.

Definition ordered_sets : PySetImpl :=
  {| set_of := ordered_set_of;
     set_isub := ordered_set_isub;
     set_of_NoDup := NoDup_remove_dups;
     set_of_elem := elem_of_remove_dups;
     set_isub_NoDup := NoDup_list_difference;
     set_isub_elem := list_elem_of_difference |}.

(** [l[:k]] for a Python integer [k] *)
Definition slice_to {A} (l : list A) (k : Z) : list A :=
  if (k <? 0)%Z then take (Z.to_nat (Z.of_nat (length l) + k)%Z) l
  else take (Z.to_nat k) l.

(** [len(s) < n] *)
Definition len_lt {A} (l : list A) (n : Z) : bool := (Z.of_nat (length l) <? n)%Z.


(** ** The data model *)

(** Modelled from the spec: [LocalRunStage] is declared in
    [local_run_state]; these are its six stages, in lifecycle order. *)
Inductive LocalRunStage : Type :=
| PREPARING
| RUNNING
| CLEANING_UP
| UPLOADING_RESULTS
| FINALIZING
| FINISHED.

Global Instance LocalRunStage_eq_dec : EqDecision LocalRunStage.
Proof. solve_decision. Defined.

(** Modelled from the spec: [Dependency], [BundleInfo] and [RunResources]
    are declared in [codalab.worker.bundle_state]; the fields are those of
    the data model, with the names the manager reads them by ([uuid],
    [location], [dependencies], [child_path]). *)
Record Dependency : Type := {
  parent_uuid : string;
  parent_path : string;
  child_path : string;
}.

Record BundleInfo : Type := {
  uuid : string;
  location : string;
  command : string;
  dependencies : list Dependency;
}.

Record RunResources : Type := {
  request_cpus : Z;
  request_gpus : Z;
  request_memory : Z;
  request_disk : Z;
  request_network : bool;
  request_docker_image : string;
}.

(** A live handle on a container of the Docker daemon (a docker-py
    [Container] object). *)
Inductive Container : Type :=
| ContainerHandle (id : string).

Global Instance Container_eq_dec : EqDecision Container.
Proof. solve_decision. Defined.

(** [LocalRunState], a named tuple.  The fields are those [create_run]
    fills.  [bundle] and [resources] hold objects in the registry and plain
    dictionaries in a snapshot, hence the two type parameters.  Times are
    opaque numbers. *)
Record RunStateOf (B R : Type) : Type := mkRunState {
  stage : LocalRunStage;
  run_status : string;
  bundle : B;
  bundle_path : string;
  bundle_dir_wait_num_tries : Z;
  resources : R;
  bundle_start_time : Z;
  container_start_time : option Z;
  container_time_total : Z;
  container_time_user : Z;
  container_time_system : Z;
  container_id : option string;
  container : option Container;
  docker_image : option string;
  is_killed : bool;
  has_contents : bool;
  cpuset : option pyset;
  gpuset : option pyset;
  max_memory : Z;
  disk_utilization : Z;
  exitcode : option Z;
  failure_message : option string;
  kill_message : option string;
  finished : bool;
  finalized : bool;
}.
Arguments mkRunState {B R}.
Arguments stage {B R} _.
Arguments run_status {B R} _.
Arguments bundle {B R} _.
Arguments bundle_path {B R} _.
Arguments bundle_dir_wait_num_tries {B R} _.
Arguments resources {B R} _.
Arguments bundle_start_time {B R} _.
Arguments container_start_time {B R} _.
Arguments container_time_total {B R} _.
Arguments container_time_user {B R} _.
Arguments container_time_system {B R} _.
Arguments container_id {B R} _.
Arguments container {B R} _.
Arguments docker_image {B R} _.
Arguments is_killed {B R} _.
Arguments has_contents {B R} _.
Arguments cpuset {B R} _.
Arguments gpuset {B R} _.
Arguments max_memory {B R} _.
Arguments disk_utilization {B R} _.
Arguments exitcode {B R} _.
Arguments failure_message {B R} _.
Arguments kill_message {B R} _.
Arguments finished {B R} _.
Arguments finalized {B R} _.

Definition LocalRunState : Type := RunStateOf BundleInfo RunResources.

(** *** [_replace]

    One function per combination of fields the manager replaces. *)

(** [state._replace(container=c, bundle=fb(state.bundle),
    resources=fr(state.resources))]; with [c] left out, the old handle. *)
Definition replace_bundle_resources {B R B' R'} (fb : B → B') (fr : R → R')
    (s : RunStateOf B R) : RunStateOf B' R' :=
  mkRunState (stage s) (run_status s) (fb (bundle s)) (bundle_path s)
    (bundle_dir_wait_num_tries s) (fr (resources s)) (bundle_start_time s)
    (container_start_time s) (container_time_total s) (container_time_user s)
    (container_time_system s) (container_id s) (container s) (docker_image s)
    (is_killed s) (has_contents s) (cpuset s) (gpuset s) (max_memory s)
    (disk_utilization s) (exitcode s) (failure_message s) (kill_message s)
    (finished s) (finalized s).

(** [state._replace(container=c)] *)
Definition replace_container {B R} (c : option Container) (s : RunStateOf B R)
    : RunStateOf B R :=
  mkRunState (stage s) (run_status s) (bundle s) (bundle_path s)
    (bundle_dir_wait_num_tries s) (resources s) (bundle_start_time s)
    (container_start_time s) (container_time_total s) (container_time_user s)
    (container_time_system s) (container_id s) c (docker_image s)
    (is_killed s) (has_contents s) (cpuset s) (gpuset s) (max_memory s)
    (disk_utilization s) (exitcode s) (failure_message s) (kill_message s)
    (finished s) (finalized s).

(** [state._replace(container_id=i)] *)
Definition replace_container_id {B R} (i : option string) (s : RunStateOf B R)
    : RunStateOf B R :=
  mkRunState (stage s) (run_status s) (bundle s) (bundle_path s)
    (bundle_dir_wait_num_tries s) (resources s) (bundle_start_time s)
    (container_start_time s) (container_time_total s) (container_time_user s)
    (container_time_system s) i (container s) (docker_image s)
    (is_killed s) (has_contents s) (cpuset s) (gpuset s) (max_memory s)
    (disk_utilization s) (exitcode s) (failure_message s) (kill_message s)
    (finished s) (finalized s).

(** [state._replace(kill_message=msg, is_killed=True)] *)
Definition replace_killed {B R} (msg : string) (s : RunStateOf B R)
    : RunStateOf B R :=
  mkRunState (stage s) (run_status s) (bundle s) (bundle_path s)
    (bundle_dir_wait_num_tries s) (resources s) (bundle_start_time s)
    (container_start_time s) (container_time_total s) (container_time_user s)
    (container_time_system s) (container_id s) (container s) (docker_image s)
    true (has_contents s) (cpuset s) (gpuset s) (max_memory s)
    (disk_utilization s) (exitcode s) (failure_message s) (Some msg)
    (finished s) (finalized s).

(** [state._replace(finalized=True)] *)
Definition replace_finalized {B R} (s : RunStateOf B R) : RunStateOf B R :=
  mkRunState (stage s) (run_status s) (bundle s) (bundle_path s)
    (bundle_dir_wait_num_tries s) (resources s) (bundle_start_time s)
    (container_start_time s) (container_time_total s) (container_time_user s)
    (container_time_system s) (container_id s) (container s) (docker_image s)
    (is_killed s) (has_contents s) (cpuset s) (gpuset s) (max_memory s)
    (disk_utilization s) (exitcode s) (failure_message s) (kill_message s)
    (finished s) true.

(** ** The manager *)

(** The attributes of [self] that the methods below read or write. *)
Record LocalRunManager : Type := {
  _runs : dict LocalRunState;
  _stop : bool;
  _shared_file_system : bool;
  _work_dir : string;
  _bundles_dir : string;
  _cpuset : pyset;
  _gpuset : pyset;
}.

Definition with_runs (runs : dict LocalRunState) (self : LocalRunManager)
    : LocalRunManager :=
  {| _runs := runs; _stop := _stop self;
     _shared_file_system := _shared_file_system self;
     _work_dir := _work_dir self; _bundles_dir := _bundles_dir self;
     _cpuset := _cpuset self; _gpuset := _gpuset self |}.

(** Class constants. *)
Definition KILL_TIMEOUT : nat := 100.
Definition BUNDLES_DIR_NAME : string := "runs".
Definition BUNDLE_DIR_WAIT_NUM_TRIES : Z := 120.

(** [__init__], as far as the attributes above go: [_bundles_dir] is
    [os.path.join(work_dir, 'runs')] and is only set (here: only meaningful)
    off a shared file system. *)
Definition init (cpuset gpuset : pyset) (work_dir : string)
    (shared_file_system : bool) : LocalRunManager :=
  {| _runs := []; _stop := false;
     _shared_file_system := shared_file_system;
     _work_dir := work_dir;
     _bundles_dir := PosixPath.join work_dir BUNDLES_DIR_NAME;
     _cpuset := cpuset; _gpuset := gpuset |}.

(** ** The allocator: [assign_cpu_and_gpu_sets] *)

(** [str(el)] on an element of a [Set[str]] *)
Definition py_str (el : string) : string := el.

(** ["... (%d) ... (%d currently out of %d on the machine)" % (a, b, c)] *)
Definition insufficient_message (what : string) (requested available total : Z)
    : string :=
  "Requested more " +:+ what +:+ " (" +:+ pretty requested
    +:+ ") than available (" +:+ pretty available
    +:+ " currently out of " +:+ pretty total +:+ " on the machine)".

(** The characters a [%d] can print: the ten digits and the sign. *)
Definition numeral_char (c : ascii) : bool :=
  bool_decide
    (c ∈ ["0"; "1"; "2"; "3"; "4"; "5"; "6"; "7"; "8"; "9"; "-"]%char).

Fixpoint numeral (s : string) : bool :=
  match s with
  | EmptyString => true
  | String c s' => numeral_char c && numeral s'
  end.

Section allocator.
Context {sets : PySetImpl}.

(** The body of the loop over [self._runs.values()]; subtracting [None]
    from a set is a [TypeError]. *)
Definition subtract_run (free : pyset * pyset) (run_state : LocalRunState)
    : result (pyset * pyset) :=
  if decide (stage run_state = RUNNING) then
    match cpuset run_state with
    | None => Raise TypeError
    | Some run_cpuset =>
        let cpuset' := set_isub free.1 run_cpuset in
        match gpuset run_state with
        | None => Raise TypeError
        | Some run_gpuset => Ok (cpuset', set_isub free.2 run_gpuset)
        end
    end
  else Ok free.

Fixpoint subtract_runs (runs : list LocalRunState) (free : pyset * pyset)
    : result (pyset * pyset) :=
  match runs with
  | [] => Ok free
  | run_state :: runs' =>
      try! free' ← subtract_run free run_state; subtract_runs runs' free'
  end.

(** The inner function [propose_set] *)
Definition propose_set (resource_set : pyset) (request_count : Z) : pyset :=
  set_of (py_str <$> slice_to resource_set request_count).

(** The method returns its result together with [self] as the call leaves
    it. *)
Definition assign_cpu_and_gpu_sets (self : LocalRunManager)
    (request_cpus request_gpus : Z)
    : result (pyset * pyset) * LocalRunManager :=
  let cpuset0 := set_of (_cpuset self) in
  let gpuset0 := set_of (_gpuset self) in
  match subtract_runs (dict_values (_runs self)) (cpuset0, gpuset0) with
  | Raise e => (Raise e, self)
  | Ok (cpuset1, gpuset1) =>
      if len_lt cpuset1 request_cpus then
        (Raise (Exception (insufficient_message "CPUs" request_cpus
                  (Z.of_nat (length cpuset1))
                  (Z.of_nat (length (_cpuset self))))), self)
      else if len_lt gpuset1 request_gpus then
        (Raise (Exception (insufficient_message "GPUs" request_gpus
                  (Z.of_nat (length gpuset1))
                  (Z.of_nat (length (_gpuset self))))), self)
      else
        (Ok (propose_set cpuset1 request_cpus,
             propose_set gpuset1 request_gpus), self)
  end.

End allocator.

(** *** What the allocator is specified against

    The indices held by the runs in stage RUNNING, and the node's indices
    without them.  These follow the words of the contract, not the code. *)
Definition running_cpus (runs : list LocalRunState) : list string :=
  run_state ← runs;
  if decide (stage run_state = RUNNING) then default [] (cpuset run_state)
  else [].

Definition running_gpus (runs : list LocalRunState) : list string :=
  run_state ← runs;
  if decide (stage run_state = RUNNING) then default [] (gpuset run_state)
  else [].

Definition free_cpus (self : LocalRunManager) : list string :=
  list_difference (remove_dups (_cpuset self))
    (running_cpus (dict_values (_runs self))).

Definition free_gpus (self : LocalRunManager) : list string :=
  list_difference (remove_dups (_gpuset self))
    (running_gpus (dict_values (_runs self))).

(** Invariant 2 of the data model, as far as the allocator needs it: a run
    in RUNNING has both sets assigned. *)
Definition running_assigned (runs : list LocalRunState) : Prop :=
  ∀ run_state, run_state ∈ runs → stage run_state = RUNNING →
    is_Some (cpuset run_state) ∧ is_Some (gpuset run_state).

(** ** The registry operations *)

(** Every method takes [self] and returns what it returns or raises,
    together with [self] afterwards. *)

Section create_run.
(** [os.path.realpath], which resolves the symbolic links of the host. *)
Variable realpath : string → string.

(** [now] is the reading of [time.time()]. *)
Definition create_run (self : LocalRunManager) (bundle : BundleInfo)
    (resources : RunResources) (now : Z) : result unit * LocalRunManager :=
  if _stop self then (Ok (), self)
  else
    let bundle_path :=
      if _shared_file_system self then location bundle
      else PosixPath.join (_bundles_dir self) (uuid bundle) in
    let run_state : LocalRunState :=
      {| stage := PREPARING;
         run_status := "";
         bundle := bundle;
         bundle_path := realpath bundle_path;
         bundle_dir_wait_num_tries := BUNDLE_DIR_WAIT_NUM_TRIES;
         resources := resources;
         bundle_start_time := now;
         container_start_time := None;
         container_time_total := 0;
         container_time_user := 0;
         container_time_system := 0;
         container_id := None;
         container := None;
         docker_image := None;
         is_killed := false;
         has_contents := false;
         cpuset := None;
         gpuset := None;
         max_memory := 0;
         disk_utilization := 0;
         exitcode := None;
         failure_message := None;
         kill_message := None;
         finished := false;
         finalized := false |} in
    (Ok (), with_runs (dict_set (_runs self) (uuid bundle) run_state) self).
End create_run.

Definition has_run (self : LocalRunManager) (run_uuid : string) : bool :=
  dict_contains (_runs self) run_uuid.

Definition mark_finalized (self : LocalRunManager) (run_uuid : string)
    : result unit * LocalRunManager :=
  if dict_contains (_runs self) run_uuid then
    match getitem (_runs self) run_uuid with
    | Raise e => (Raise e, self)
    | Ok run_state =>
        (Ok (),
         with_runs (dict_set (_runs self) run_uuid (replace_finalized run_state))
           self)
    end
  else (Ok (), self).

Definition kill (self : LocalRunManager) (run_uuid : string)
    : result unit * LocalRunManager :=
  match getitem (_runs self) run_uuid with
  | Raise e => (Raise e, self)
  | Ok run_state =>
      let run_state := replace_killed "Kill requested" run_state in
      (Ok (),
       with_runs (dict_set (_runs self) (uuid (bundle run_state)) run_state)
         self)
  end.

Section io.
(** The host outside the manager: its files and whoever listens to the
    replies. *)
Context {Host Args Reply : Type}.
(** [self._reader.read(run_state, path, args, reply)] *)
Variable reader_read :
  LocalRunState → string → Args → Reply → Host → result unit * Host.
(** [with open(p, 'w') as f: f.write(string)] *)
Variable open_write : string → string → Host → result unit * Host.

Definition read (self : LocalRunManager) (run_uuid path : string) (args : Args)
    (reply : Reply) (host : Host) : result unit * LocalRunManager * Host :=
  match getitem (_runs self) run_uuid with
  | Raise e => (Raise e, self, host)
  | Ok run_state =>
      let '(r, host') := reader_read run_state path args reply host in
      (r, self, host')
  end.

(** [x in set(dep.child_path for dep in deps)] is membership among the
    child paths. *)
Definition write (self : LocalRunManager) (run_uuid path contents : string)
    (host : Host) : result unit * LocalRunManager * Host :=
  match getitem (_runs self) run_uuid with
  | Raise e => (Raise e, self, host)
  | Ok run_state =>
      if bool_decide (PosixPath.normpath path
                        ∈ child_path <$> dependencies (bundle run_state))
      then (Ok (), self, host)
      else
        let '(r, host') :=
          open_write (PosixPath.join (bundle_path run_state) path) contents
            host in
        (r, self, host')
  end.
End io.

(** ** The container runtime *)

(** The Docker daemon, as far as the manager looks at it: the ids of the
    containers that exist. *)
Definition Docker : Type := list string.

(** [self._docker.containers.get(id)] for an id that is a string or
    [None]: [NullResource] for a false id, [NotFound] for an id the daemon
    does not know, a live handle otherwise. *)
Definition containers_get (docker : Docker) (id : option string)
    : result Container :=
  match id with
  | None => Raise NullResource
  | Some s =>
      if bool_decide (s = "") then Raise NullResource
      else if bool_decide (s ∈ docker) then Ok (ContainerHandle s)
      else Raise NotFound
  end.

(** [container.remove(force=True)] *)
Definition container_remove (docker : Docker) (c : Container)
    : result unit * Docker :=
  match c with
  | ContainerHandle id =>
      if bool_decide (id ∈ docker)
      then (Ok (), filter (λ i, i ≠ id) docker)
      else (Raise NotFound, docker)
  end.

(** [except (docker.errors.NotFound, docker.errors.NullResource)] *)
Definition not_found_or_null (e : exn) : bool :=
  match e with
  | NotFound | NullResource => true
  | _ => false
  end.

(** ** Snapshots *)

(** Modelled from the spec: [JsonStateCommitter] (declared in
    [codalab.worker.state_committer]) keeps the last committed snapshot;
    [load] returns it, or an empty snapshot on first boot. *)
Definition JsonStateCommitter (Snapshot : Type) : Type := option Snapshot.

Definition commit {Snapshot} (committer : JsonStateCommitter Snapshot)
    (state : Snapshot) : JsonStateCommitter Snapshot :=
  Some state.

Definition load {Snapshot} (empty : Snapshot)
    (committer : JsonStateCommitter Snapshot) : Snapshot :=
  default empty committer.

(** Python truth of an optional string: [None] and [''] are false. *)
Definition truthy (s : option string) : bool :=
  match s with
  | None => false
  | Some s => negb (bool_decide (s = ""))
  end.

Section persistence.
(** The plain dictionaries [to_dict] produces, and the four conversions of
    [BundleInfo] and [RunResources]. *)
Context {BundleDict ResourcesDict : Type}.
Variable bundle_to_dict : BundleInfo → BundleDict.
Variable bundle_from_dict : BundleDict → BundleInfo.
Variable resources_to_dict : RunResources → ResourcesDict.
Variable resources_from_dict : ResourcesDict → RunResources.

Definition SavedRunState : Type := RunStateOf BundleDict ResourcesDict.

(** The value of the comprehension in [save_state] for one run. *)
Definition saved_run (state : LocalRunState) : SavedRunState :=
  replace_container None
    (replace_bundle_resources bundle_to_dict resources_to_dict state).

Definition save_state (self : LocalRunManager)
    (committer : JsonStateCommitter (dict SavedRunState))
    : JsonStateCommitter (dict SavedRunState) :=
  let runs := prod_map id saved_run <$> _runs self in
  commit committer runs.

(** The body of the loop of [load_state], up to the assignment. *)
Definition loaded_run (docker : Docker) (run_state : SavedRunState)
    : result LocalRunState :=
  try! run_state ←
    (if truthy (container_id run_state) then
       match containers_get docker (container_id run_state) with
       | Ok c => Ok (replace_container (Some c) run_state)
       | Raise NotFound => Ok (replace_container_id None run_state)
       | Raise e => Raise e
       end
     else Ok run_state);
  Ok (replace_bundle_resources bundle_from_dict resources_from_dict run_state).

Fixpoint load_runs (items : list (string * SavedRunState)) (docker : Docker)
    (self : LocalRunManager) : result unit * LocalRunManager :=
  match items with
  | [] => (Ok (), self)
  | (run_uuid, run_state) :: items' =>
      match loaded_run docker run_state with
      | Raise e => (Raise e, self)
      | Ok run_state' =>
          load_runs items' docker
            (with_runs (dict_set (_runs self) run_uuid run_state') self)
      end
  end.

Definition load_state (self : LocalRunManager)
    (committer : JsonStateCommitter (dict SavedRunState)) (docker : Docker)
    : result unit * LocalRunManager :=
  load_runs (load [] committer) docker self.
End persistence.

(** ** Shutdown: [kill_all] *)

(** [v.stage != LocalRunStage.FINISHED] *)
Definition not_finished (v : LocalRunState) : bool :=
  negb (bool_decide (stage v = FINISHED)).

(** The first loop of [kill_all], over [self._runs.keys()]. *)
Fixpoint kill_each (keys : list string) (self : LocalRunManager)
    : result unit * LocalRunManager :=
  match keys with
  | [] => (Ok (), self)
  | run_uuid :: keys' =>
      match getitem (_runs self) run_uuid with
      | Raise e => (Raise e, self)
      | Ok run_state =>
          let run_state := replace_killed "Worker stopped" run_state in
          kill_each keys'
            (with_runs (dict_set (_runs self) run_uuid run_state) self)
      end
  end.

Section kill_all.
(** What the other threads do to the manager while this one is in
    [time.sleep(1)] of the given attempt, the lock being free. *)
Variable while_asleep : nat → LocalRunManager → LocalRunManager.

(** The second loop, over [range(KILL_TIMEOUT)]; [slept] counts the seconds
    spent in [time.sleep]. *)
Fixpoint kill_wait (attempts : list nat) (self : LocalRunManager) (slept : nat)
    : LocalRunManager * nat :=
  match attempts with
  | [] => (self, slept)
  | attempt :: attempts' =>
      let self := with_runs (dict_filter not_finished (_runs self)) self in
      (* if len(self._runs) > 0: logger.debug(...) *)
      let self := while_asleep attempt self in
      kill_wait attempts' self (slept + 1)
  end.

(** Returns the outcome, [self] and the seconds slept. *)
Definition kill_all (self : LocalRunManager)
    : result unit * LocalRunManager * nat :=
  match kill_each (dict_keys (_runs self)) self with
  | (Raise e, self) => (Raise e, self, 0%nat)
  | (Ok _, self) =>
      let '(self, slept) := kill_wait (seq 0 KILL_TIMEOUT) self 0%nat in
      (Ok (), self, slept)
  end.
End kill_all.

(** ** The tick: [process_runs] *)

Section process_runs.
(** [self._run_state_manager.transition], declared in [local_run_state]: it
    sees the manager (through the allocator) and the daemon, and returns
    the next state of the run and the daemon as it leaves it. *)
Variable transition :
  LocalRunManager → Docker → LocalRunState → LocalRunState * Docker.
(** docker-py's answer to [containers.get(x)] when [x] is a live handle
    and not an id. *)
Variable get_by_handle : Docker → Container → result Container.

(** The first loop, over [self._runs.keys()]. *)
Fixpoint transition_each (keys : list string) (self : LocalRunManager)
    (docker : Docker) : result unit * LocalRunManager * Docker :=
  match keys with
  | [] => (Ok (), self, docker)
  | bundle_uuid :: keys' =>
      match getitem (_runs self) bundle_uuid with
      | Raise e => (Raise e, self, docker)
      | Ok run_state =>
          let '(run_state', docker') := transition self docker run_state in
          transition_each keys'
            (with_runs (dict_set (_runs self) bundle_uuid run_state') self)
            docker'
      end
  end.

(** The list the source calls [finished_container_ids]: it collects
    [run.container]. *)
Definition finished_container_ids (self : LocalRunManager)
    : list (option Container) :=
  container <$>
    filter (λ run, (stage run = FINISHED ∨ stage run = FINALIZING)
                   ∧ container_id run ≠ None)
      (dict_values (_runs self)).

(** [self._docker.containers.get(container_id)] on an element of that
    list. *)
Definition containers_get_object (docker : Docker) (x : option Container)
    : result Container :=
  match x with
  | None => containers_get docker None
  | Some h => get_by_handle docker h
  end.

(** The second loop: get, remove, and pass over [NotFound] and
    [NullResource]. *)
Fixpoint remove_each (ids : list (option Container)) (docker : Docker)
    : result unit * Docker :=
  match ids with
  | [] => (Ok (), docker)
  | container_id :: ids' =>
      let '(r, docker') :=
        match containers_get_object docker container_id with
        | Ok container => container_remove docker container
        | Raise e => (Raise e, docker)
        end in
      match r with
      | Ok _ => remove_each ids' docker'
      | Raise e =>
          if not_found_or_null e then remove_each ids' docker'
          else (Raise e, docker')
      end
  end.

Definition process_runs (self : LocalRunManager) (docker : Docker)
    : result unit * LocalRunManager * Docker :=
  match transition_each (dict_keys (_runs self)) self docker with
  | (Raise e, self, docker) => (Raise e, self, docker)
  | (Ok _, self, docker) =>
      match remove_each (finished_container_ids self) docker with
      | (Raise e, docker) => (Raise e, self, docker)
      | (Ok _, docker) =>
          (Ok (), with_runs (dict_filter not_finished (_runs self)) self,
           docker)
      end
  end.
End process_runs.

(** ** What a tick is expected to do to the registry

    This follows the docstring of [process_runs] ("transition each run then
    filter out finished runs"), not its loop over the keys: the entries
    from first to last, each run replaced by what [transition] returns for
    it, where every call sees the manager with the runs before it already
    replaced and the daemon as the calls before it left it.  [pre] holds
    the entries already replaced, [todo] the ones to come. *)
Section transitioned.
Variable transition :
  LocalRunManager → Docker → LocalRunState → LocalRunState * Docker.

Fixpoint transitioned_from (pre todo : dict LocalRunState)
    (self : LocalRunManager) (docker : Docker)
    : dict LocalRunState * Docker :=
  match todo with
  | [] => (pre, docker)
  | (bundle_uuid, run_state) :: todo' =>
      let '(run_state', docker') :=
        transition (with_runs (pre ++ todo) self) docker run_state in
      transitioned_from (pre ++ [(bundle_uuid, run_state')]) todo' self docker'
  end.

Definition transitioned (self : LocalRunManager) (docker : Docker)
    : dict LocalRunState * Docker :=
  transitioned_from [] (_runs self) self docker.
End transitioned.

(** ** Views of a state, for stating what an operation leaves alone *)

(** Every field but [finalized]. *)
Definition but_finalized (s : LocalRunState) :=
  (stage s, run_status s, bundle s, bundle_path s, bundle_dir_wait_num_tries s,
   resources s, bundle_start_time s, container_start_time s,
   container_time_total s, container_time_user s, container_time_system s,
   container_id s, container s, docker_image s, is_killed s, has_contents s,
   cpuset s, gpuset s, max_memory s, disk_utilization s, exitcode s,
   failure_message s, kill_message s, finished s).

(** Every field but [container_id] and the live handle [container]. *)
Definition but_container (s : LocalRunState) :=
  (stage s, run_status s, bundle s, bundle_path s, bundle_dir_wait_num_tries s,
   resources s, bundle_start_time s, container_start_time s,
   container_time_total s, container_time_user s, container_time_system s,
   docker_image s, is_killed s, has_contents s,
   cpuset s, gpuset s, max_memory s, disk_utilization s, exitcode s,
   failure_message s, kill_message s, finished s, finalized s).

(** Every attribute of the manager but the registry. *)
Definition but_runs (self : LocalRunManager) :=
  (_stop self, _shared_file_system self, _work_dir self, _bundles_dir self,
   _cpuset self, _gpuset self).

(** ** What a run is expected to be after commit and load

    This follows the words of the round-trip property, not the code: the
    run as saved, with the live handle looked up again in the runtime by
    [container_id] where one is set (set meaning true in Python's sense:
    neither [None] nor empty), or with [container_id] cleared where the
    runtime does not know it. *)
Definition restored (docker : Docker) (run_state : LocalRunState)
    : LocalRunState :=
  match container_id run_state with
  | Some cid =>
      if bool_decide (cid = "") then replace_container None run_state
      else if bool_decide (cid ∈ docker) then
        replace_container (Some (ContainerHandle cid)) run_state
      else replace_container_id None (replace_container None run_state)
  | None => replace_container None run_state
  end.

(** ** Sample states

    A node with four CPU indices and two GPU indices; run [0xa1] is in
    RUNNING and holds CPUs 0 and 1 and GPU 0, run [0xb2] is being
    prepared, run [0xc3] waits in FINALIZING with a container id but no
    live handle, run [0xd4] is FINISHED. *)

Definition sample_bundle (run_uuid : string) : BundleInfo :=
  {| uuid := run_uuid;
     location := "/mnt/bundles/" +:+ run_uuid;
     command := "echo hi";
     dependencies :=
       [ {| parent_uuid := "0x77"; parent_path := ""; child_path := "data" |};
         {| parent_uuid := "0x78"; parent_path := "src";
            child_path := "lib/src" |} ] |}.

Definition sample_resources : RunResources :=
  {| request_cpus := 2; request_gpus := 1; request_memory := 1024;
     request_disk := 4096; request_network := false;
     request_docker_image := "alpine" |}.

Definition sample_run (run_uuid : string) (run_stage : LocalRunStage)
    (cid : option string) (handle : option Container)
    (cpus gpus : option pyset) : LocalRunState :=
  {| stage := run_stage;
     run_status := "";
     bundle := sample_bundle run_uuid;
     bundle_path := "/work/runs/" +:+ run_uuid;
     bundle_dir_wait_num_tries := BUNDLE_DIR_WAIT_NUM_TRIES;
     resources := sample_resources;
     bundle_start_time := 1000;
     container_start_time := None;
     container_time_total := 0;
     container_time_user := 0;
     container_time_system := 0;
     container_id := cid;
     container := handle;
     docker_image := None;
     is_killed := false;
     has_contents := false;
     cpuset := cpus;
     gpuset := gpus;
     max_memory := 0;
     disk_utilization := 0;
     exitcode := None;
     failure_message := None;
     kill_message := None;
     finished := false;
     finalized := false |}.

Definition run_a1 : LocalRunState :=
  sample_run "0xa1" RUNNING (Some "c-a1") (Some (ContainerHandle "c-a1"))
    (Some ["0"; "1"]) (Some ["0"]).
Definition run_b2 : LocalRunState :=
  sample_run "0xb2" PREPARING None None None None.
Definition run_c3 : LocalRunState :=
  sample_run "0xc3" FINALIZING (Some "c-c3") None (Some ["2"]) (Some []).
Definition run_d4 : LocalRunState :=
  sample_run "0xd4" FINISHED None None (Some ["3"]) (Some []).

Definition sample_node (runs : dict LocalRunState) : LocalRunManager :=
  with_runs runs (init ["0"; "1"; "2"; "3"] ["0"; "1"] "/work" false).

Definition node_ab : LocalRunManager :=
  sample_node [("0xa1", run_a1); ("0xb2", run_b2)].

(** *** A sample host

    Files are a dictionary from paths to contents; the reader answers
    nothing; [/mnt] is a symbolic link to [/srv]. *)
Definition sample_host : Type := dict string.

Definition sample_reader_read (run_state : LocalRunState) (path : string)
    (args reply : unit) (host : sample_host) : result unit * sample_host :=
  (Ok (), host).

Definition sample_open_write (path contents : string) (host : sample_host)
    : result unit * sample_host :=
  (Ok (), dict_set host path contents).

Definition sample_realpath (path : string) : string :=
  match path with
  | String "/" (String "m" (String "n" (String "t" (String "/" rest)))) =>
      "/srv/" +:+ rest
  | _ => path
  end.

Definition node_shared : LocalRunManager :=
  init ["0"; "1"] [] "/work" true.

(** *** Sample plain dictionaries

    A bundle as [to_dict] would write it: its fields by position, the
    dependencies as triples. *)
Definition sample_bundle_dict : Type :=
  string * string * string * list (string * string * string).

Definition sample_bundle_to_dict (b : BundleInfo) : sample_bundle_dict :=
  (uuid b, location b, command b,
   (λ d, (parent_uuid d, parent_path d, child_path d)) <$> dependencies b).

Definition sample_bundle_from_dict (d : sample_bundle_dict) : BundleInfo :=
  let '(u, l, c, deps) := d in
  {| uuid := u; location := l; command := c;
     dependencies :=
       (λ '(pu, pp, cp),
          {| parent_uuid := pu; parent_path := pp; child_path := cp |})
         <$> deps |}.

Definition sample_resources_dict : Type := Z * Z * Z * Z * bool * string.

Definition sample_resources_to_dict (r : RunResources) : sample_resources_dict :=
  (request_cpus r, request_gpus r, request_memory r, request_disk r,
   request_network r, request_docker_image r).

Definition sample_resources_from_dict (d : sample_resources_dict)
    : RunResources :=
  let '(c, g, m, k, n, i) := d in
  {| request_cpus := c; request_gpus := g; request_memory := m;
     request_disk := k; request_network := n; request_docker_image := i |}.

Definition node_stopped : LocalRunManager :=
  {| _runs := [("0xa1", run_a1)]; _stop := true;
     _shared_file_system := false; _work_dir := "/work";
     _bundles_dir := "/work/runs"; _cpuset := ["0"; "1"; "2"; "3"];
     _gpuset := ["0"; "1"] |}.

Definition node_abcd : LocalRunManager :=
  sample_node
    [("0xa1", run_a1); ("0xb2", run_b2); ("0xc3", run_c3); ("0xd4", run_d4)].

(** *** Sample collaborators for the tick and the shutdown *)

(** A state machine that leaves every run where it is, as it does for a
    run in FINALIZING that the server has not acknowledged. *)
Definition idle_transition (self : LocalRunManager) (docker : Docker)
    (run_state : LocalRunState) : LocalRunState * Docker :=
  (run_state, docker).

(** No other thread touches the manager. *)
Definition nobody_else (attempt : nat) (self : LocalRunManager)
    : LocalRunManager :=
  self.

(** A run that is FINISHED and still has both its container id and its
    live handle. *)
Definition run_e5 : LocalRunState :=
  sample_run "0xe5" FINISHED (Some "c-e5") (Some (ContainerHandle "c-e5"))
    (Some []) (Some []).

Definition node_c3 : LocalRunManager := sample_node [("0xc3", run_c3)].
Definition node_e5 : LocalRunManager := sample_node [("0xe5", run_e5)].
Definition node_empty : LocalRunManager := sample_node [].

(** [state._replace(stage=st)], as the state machine does it. *)
Definition with_stage (st : LocalRunStage) (s : LocalRunState)
    : LocalRunState :=
  mkRunState st (run_status s) (bundle s) (bundle_path s)
    (bundle_dir_wait_num_tries s) (resources s) (bundle_start_time s)
    (container_start_time s) (container_time_total s) (container_time_user s)
    (container_time_system s) (container_id s) (container s) (docker_image s)
    (is_killed s) (has_contents s) (cpuset s) (gpuset s) (max_memory s)
    (disk_utilization s) (exitcode s) (failure_message s) (kill_message s)
    (finished s) (finalized s).

(** A state machine that moves runs on: a run in RUNNING whose container
    the daemon no longer holds goes to FINALIZING, a run in FINALIZING goes
    to FINISHED, and every other run stays where it is. *)
Definition moving_transition (self : LocalRunManager) (docker : Docker)
    (run_state : LocalRunState) : LocalRunState * Docker :=
  match stage run_state with
  | RUNNING =>
      if bool_decide (container_id run_state ∈ Some <$> docker)
      then (run_state, docker)
      else (with_stage FINALIZING run_state, docker)
  | FINALIZING => (with_stage FINISHED run_state, docker)
  | _ => (run_state, docker)
  end.

Definition node_ad : LocalRunManager :=
  sample_node [("0xa1", run_a1); ("0xd4", run_d4)].

(** ** More of the manager: queries, the registry invariant *)

(** The properties [cpus] and [gpus]. *)
Definition cpus (self : LocalRunManager) : Z := Z.of_nat (length (_cpuset self)).
Definition gpus (self : LocalRunManager) : Z := Z.of_nat (length (_gpuset self)).

(** What [create_run] establishes for the entry it writes: a run is
    registered once, under the UUID of its bundle. *)
Definition registry_ok (runs : dict LocalRunState) : Prop :=
  dict_wf runs ∧ Forall (λ kv, uuid (bundle kv.2) = kv.1) runs.

(** Every field but [is_killed] and [kill_message]. *)
Definition but_killed (s : LocalRunState) :=
  (stage s, run_status s, bundle s, bundle_path s, bundle_dir_wait_num_tries s,
   resources s, bundle_start_time s, container_start_time s,
   container_time_total s, container_time_user s, container_time_system s,
   container_id s, container s, docker_image s, has_contents s,
   cpuset s, gpuset s, max_memory s, disk_utilization s, exitcode s,
   failure_message s, finished s, finalized s).

(** ** The lifecycle: [start] and [stop] *)

(** [self._stop = stop] *)
Definition with_stop (stop : bool) (self : LocalRunManager) : LocalRunManager :=
  {| _runs := _runs self; _stop := stop;
     _shared_file_system := _shared_file_system self;
     _work_dir := _work_dir self; _bundles_dir := _bundles_dir self;
     _cpuset := _cpuset self; _gpuset := _gpuset self |}.

(** The attributes [worker_docker_network], [docker_network_external] and
    [docker_network_internal] that [_init_docker_networks] sets: the three
    networks, by name. *)
Record Networks : Type := {
  worker_docker_network : string;
  docker_network_external : string;
  docker_network_internal : string;
}.

(** What a call to the daemon about a network does: it returns, it raises
    [docker.errors.APIError] (or a subclass, as [NotFound] is), or it
    raises something else. *)
Inductive api_outcome : Type :=
| ApiOk
| ApiError (explanation : string)
| ApiOther (e : exn).

(** The managers the run manager starts and stops, and the daemon's
    answer to [network.remove()].  [Collab] is the state of the image
    manager, the dependency manager and the run state machine; [Daemon]
    that of the daemon's networks. *)
Class Collaborators (Collab Daemon : Type) : Type := {
  image_manager_start : Collab → result unit * Collab;
  image_manager_stop : Collab → result unit * Collab;
  dependency_manager_start : Collab → result unit * Collab;
  dependency_manager_stop : Collab → result unit * Collab;
  run_state_manager_stop : Collab → result unit * Collab;
  network_remove : string → Daemon → api_outcome * Daemon;
}.

Section lifecycle.
Context {Collab Daemon BundleDict ResourcesDict : Type}.
Context {collaborators : Collaborators Collab Daemon}.
Variable bundle_to_dict : BundleInfo → BundleDict.
Variable bundle_from_dict : BundleDict → BundleInfo.
Variable resources_to_dict : RunResources → ResourcesDict.
Variable resources_from_dict : ResourcesDict → RunResources.

(** Returns the outcome, [self] and the collaborators. *)
Definition start (self : LocalRunManager) (collab : Collab)
    (committer : JsonStateCommitter (dict (RunStateOf BundleDict ResourcesDict)))
    (docker : Docker) : result unit * LocalRunManager * Collab :=
  match load_state bundle_from_dict resources_from_dict self committer docker
  with
  | (Raise e, self) => (Raise e, self, collab)
  | (Ok _, self) =>
      match image_manager_start collab with
      | (Raise e, collab) => (Raise e, self, collab)
      | (Ok _, collab) =>
          if negb (_shared_file_system self) then
            let '(r, collab) := dependency_manager_start collab in
            (r, self, collab)
          else (Ok (), self, collab)
      end
  end.

(** The [try] block of [stop]: three removals in a row, left at the first
    that raises. *)
Definition remove_networks (nets : Networks) (daemon : Daemon)
    : api_outcome * Daemon :=
  match network_remove (worker_docker_network nets) daemon with
  | (ApiOk, daemon) =>
      match network_remove (docker_network_internal nets) daemon with
      | (ApiOk, daemon) =>
          network_remove (docker_network_external nets) daemon
      | raised => raised
      end
  | raised => raised
  end.

(** The managers [stop] stops before it saves the state, in its order;
    the dependency manager only off a shared file system. *)
Definition stop_managers (self : LocalRunManager) (collab : Collab)
    : result unit * Collab :=
  match image_manager_stop collab with
  | (Raise e, collab) => (Raise e, collab)
  | (Ok _, collab) =>
      match (if negb (_shared_file_system self)
             then dependency_manager_stop collab else (Ok (), collab)) with
      | (Raise e, collab) => (Raise e, collab)
      | (Ok _, collab) => run_state_manager_stop collab
      end
  end.

(** Returns the outcome, [self], the collaborators, the commit file and
    the daemon. *)
Definition stop (self : LocalRunManager) (collab : Collab)
    (committer : JsonStateCommitter (dict (RunStateOf BundleDict ResourcesDict)))
    (nets : Networks) (daemon : Daemon)
    : result unit * LocalRunManager * Collab
      * JsonStateCommitter (dict (RunStateOf BundleDict ResourcesDict)) * Daemon :=
  let self := with_stop true self in
  match stop_managers self collab with
  | (Raise e, collab) => (Raise e, self, collab, committer, daemon)
  | (Ok _, collab) =>
      let committer :=
        save_state bundle_to_dict resources_to_dict self committer in
      match remove_networks nets daemon with
      | (ApiOther e, daemon) => (Raise e, self, collab, committer, daemon)
      | (_, daemon) => (Ok (), self, collab, committer, daemon)
      end
  end.
End lifecycle.

(** *** Sample collaborators

    Each manager notes that it was called; the daemon's networks are their
    names, and one that is not there cannot be removed. *)
Definition sample_collaborators : Collaborators (list string) (list string) :=
  {| image_manager_start := λ log, (Ok (), log ++ ["image start"]);
     image_manager_stop := λ log, (Ok (), log ++ ["image stop"]);
     dependency_manager_start := λ log, (Ok (), log ++ ["dependency start"]);
     dependency_manager_stop := λ log, (Ok (), log ++ ["dependency stop"]);
     run_state_manager_stop := λ log, (Ok (), log ++ ["state machine stop"]);
     network_remove := λ name nets,
       if bool_decide (name ∈ nets)
       then (ApiOk, filter (λ n, n ≠ name) nets)
       else (ApiError "no such network", nets) |}.

Definition sample_networks : Networks :=
  {| worker_docker_network := "net_general";
     docker_network_external := "net_ext";
     docker_network_internal := "net_int" |}.

(** ** [all_runs] *)

(** [WorkerRun], a named tuple declared in [codalab.worker.bundle_state]:
    the fields are those [all_runs] fills. *)
Module WorkerRun.
Record t : Type := mk {
  uuid : string;
  run_status : string;
  bundle_start_time : Z;
  container_start_time : option Z;
  container_time_total : Z;
  container_time_user : Z;
  container_time_system : Z;
  docker_image : option string;
  state : string;
  remote : string;
  exitcode : option Z;
  failure_message : option string;
}.
End WorkerRun.

Section all_runs.
(** The table [LocalRunStage.WORKER_STATE_TO_SERVER_STATE], declared in
    [local_run_state] and taken to have an entry for every stage, and
    [self._worker.id]. *)
Variable WORKER_STATE_TO_SERVER_STATE : LocalRunStage → string.
Variable worker_id : string.

(** The element of the comprehension for one run. *)
Definition worker_run (run_state : LocalRunState) : WorkerRun.t :=
  {| WorkerRun.uuid := uuid (bundle run_state);
     WorkerRun.run_status := run_status run_state;
     WorkerRun.bundle_start_time := bundle_start_time run_state;
     WorkerRun.container_start_time := container_start_time run_state;
     WorkerRun.container_time_total := container_time_total run_state;
     WorkerRun.container_time_user := container_time_user run_state;
     WorkerRun.container_time_system := container_time_system run_state;
     WorkerRun.docker_image := docker_image run_state;
     WorkerRun.state := WORKER_STATE_TO_SERVER_STATE (stage run_state);
     WorkerRun.remote := worker_id;
     WorkerRun.exitcode := exitcode run_state;
     WorkerRun.failure_message := failure_message run_state |}.

Definition all_runs (self : LocalRunManager) : list WorkerRun.t :=
  worker_run <$> dict_values (_runs self).
End all_runs.

(** A sample table: the name of the stage. *)
Definition sample_server_state (run_stage : LocalRunStage) : string :=
  match run_stage with
  | PREPARING => "preparing"
  | RUNNING => "running"
  | CLEANING_UP => "running"
  | UPLOADING_RESULTS => "running"
  | FINALIZING => "finalizing"
  | FINISHED => "ready"
  end.

(** ** [free_disk_bytes] *)

(** The methods of [str] and the conversion [int] that [free_disk_bytes]
    applies to the output of [df].  Text is a string of code points below
    256, which is where the output of [df] lies. *)
Module PyStr.

(** The white space of [str.split()], [str.strip()] and [int]: tab to
    carriage return, the four separators, the space, NEL and the
    no-break space. *)
Definition isspace (c : ascii) : bool :=
  let n := nat_of_ascii c in
  ((9 <=? n) && (n <=? 13) || (28 <=? n) && (n <=? 32)
   || (n =? 133) || (n =? 160))%nat.

(** [s.split(sep)] for a separator of one character, here by a test on
    the character; empty fields are kept. *)
Fixpoint split_on (p : ascii → bool) (s : string) : list string :=
  match s with
  | EmptyString => [""]
  | String c s' =>
      if p c then "" :: split_on p s'
      else match split_on p s' with
           | [] => [String c ""]
           | w :: ws => String c w :: ws
           end
  end.

(** The string of one line feed, and [s.split("\n")]. *)
Definition newline : string := String "010" "".

Definition split_lines (s : string) : list string :=
  split_on (λ c, bool_decide (c = "010"%char)) s.

(** [s.split()]: the fields between white space, the empty ones left
    out. *)
Definition split (s : string) : list string :=
  filter (λ w, w ≠ "") (split_on isspace s).

(** [s.lstrip()], [s.rstrip()], [s.strip()] *)
Fixpoint lstrip (s : string) : string :=
  match s with
  | EmptyString => ""
  | String c s' => if isspace c then lstrip s' else s
  end.

Fixpoint rstrip (s : string) : string :=
  match s with
  | EmptyString => ""
  | String c s' =>
      match rstrip s' with
      | EmptyString => if isspace c then "" else String c ""
      | r => String c r
      end
  end.

Definition strip (s : string) : string := rstrip (lstrip s).

Definition digit_value (c : ascii) : option Z :=
  let n := nat_of_ascii c in
  if ((48 <=? n) && (n <=? 57))%nat then Some (Z.of_nat n - 48) else None.

(** Decimal digits, with single underscores allowed between two digits;
    [acc] is the value of the digits read so far. *)
Fixpoint digits (acc : Z) (s : string) : option Z :=
  match s with
  | EmptyString => None
  | String c s' =>
      match digit_value c with
      | None => None
      | Some d =>
          let acc := 10 * acc + d in
          match s' with
          | EmptyString => Some acc
          | String c' s'' =>
              if bool_decide (c' = "_"%char) then digits acc s''
              else digits acc s'
          end
      end
  end.

(** [int(s)]: white space around, a sign, digits; [None] where Python
    raises [ValueError].  There is no limit on the number of digits. *)
Definition int (s : string) : option Z :=
  match strip s with
  | EmptyString => None
  | String c s' =>
      if bool_decide (c = "+"%char) then digits 0 s'
      else if bool_decide (c = "-"%char) then Z.opp <$> digits 0 s'
      else digits 0 (String c s')
  end.

(** [l.index(x)]; [None] where Python raises [ValueError]. *)
Fixpoint index (x : string) (l : list string) : option nat :=
  match l with
  | [] => None
  | y :: l' => if decide (y = x) then Some 0%nat else S <$> index x l'
  end.

End PyStr.

(** What [Popen(["df", work_dir], stdout=PIPE)] and [p.communicate()]
    come to: an exception, or the bytes of the two streams ([None] for a
    stream that is not piped). *)
Inductive df_run : Type :=
| DfRaised (e : exn)
| DfCommunicated (output : string) (error : option string).

(** Python truth of optional bytes: [None] and [b''] are false. *)
Definition bytes_truthy (b : option string) : bool :=
  match b with
  | Some (String _ _) => true
  | _ => false
  end.

Section free_disk_bytes.
(** Running [df] on a directory of the host, and [bytes.decode()], which
    raises on bytes that are not UTF-8. *)
Variable run_df : string → df_run.
Variable decode : string → result string.

(** Every exception inside the [try] ends in [return None]. *)
Definition free_disk_bytes (self : LocalRunManager) : option Z :=
  match run_df (_work_dir self) with
  | DfRaised _ => None
  | DfCommunicated output error =>
      if bytes_truthy error then None
      else if bytes_truthy (Some output) then
        match decode output with
        | Raise _ => None
        | Ok text =>
            let lines := PyStr.split_lines text in
            header ← lines !! 0%nat;
            index ← PyStr.index "Available" (PyStr.split header);
            row ← lines !! 1%nat;
            field ← PyStr.split row !! index;
            n ← PyStr.int field;
            Some (n * 1024)
        end
      else None
  end.
End free_disk_bytes.

(** A sample host: [df] prints one file system, and its output is ASCII. *)
Definition sample_df_output : string :=
  "Filesystem     1K-blocks    Used Available Use% Mounted on" +:+ "
" +:+ "/dev/sda1       41152736 9275812  30098628  24% /" +:+ "
".

Definition sample_run_df (work_dir : string) : df_run :=
  DfCommunicated sample_df_output None.

Definition sample_decode (output : string) : result string := Ok output.

(** * Proofs *)

(** ** Dictionaries *)

Section dict_facts.
Context {V : Type}.
Implicit Types (d : dict V) (k : string) (v : V).

Lemma dict_get_set_eq d k v : dict_get (dict_set d k v) k = Some v.
Proof.
  induction d as [|[k' v'] d IH]; simpl.
  - by rewrite decide_True.
  - destruct (decide (k' = k)) as [->|Hne]; simpl.
    + by rewrite decide_True.
    + by rewrite decide_False.
Qed.

Lemma dict_get_set_ne d k k' v :
  k ≠ k' → dict_get (dict_set d k v) k' = dict_get d k'.
Proof.
  intros Hne. induction d as [|[k0 v0] d IH]; simpl.
  - by rewrite decide_False.
  - destruct (decide (k0 = k)) as [->|Hne0]; simpl.
    + by rewrite !decide_False.
    + by rewrite IH.
Qed.

Lemma dict_keys_set_present d k v :
  is_Some (dict_get d k) → dict_keys (dict_set d k v) = dict_keys d.
Proof.
  unfold dict_keys. induction d as [|[k' v'] d IH]; simpl.
  - by intros [? ?].
  - destruct (decide (k' = k)) as [->|Hne]; simpl; [done|].
    intros Hs. f_equal. by apply IH.
Qed.

Lemma dict_get_None d k : dict_get d k = None ↔ k ∉ dict_keys d.
Proof.
  unfold dict_keys. induction d as [|[k' v'] d IH]; simpl.
  - split; [intros _; apply not_elem_of_nil | done].
  - rewrite not_elem_of_cons. destruct (decide (k' = k)) as [->|Hne].
    + split; [done | by intros [? _]].
    + rewrite IH. split; [intros ?; split; [congruence|done] | by intros [_ ?]].
Qed.

Lemma dict_set_absent d k v :
  dict_get d k = None → dict_set d k v = d ++ [(k, v)].
Proof.
  induction d as [|[k' v'] d IH]; simpl; [done|].
  destruct (decide (k' = k)); [done|]. intros Hg. by rewrite IH.
Qed.

Lemma dict_filter_values (p : V → bool) d v :
  v ∈ dict_values (dict_filter p d) ↔ v ∈ dict_values d ∧ p v = true.
Proof.
  unfold dict_values, dict_filter. rewrite !list_elem_of_fmap. split.
  - intros ([k' v'] & -> & Hin). apply list_elem_of_filter in Hin as [Hp Hin].
    split; [by exists (k', v')|done].
  - intros [([k' v'] & -> & Hin) Hp]. exists (k', v'). split; [done|].
    by apply list_elem_of_filter.
Qed.
End dict_facts.

(** ** The allocator *)

Lemma running_cpus_cons r rs :
  running_cpus (r :: rs) =
  (if decide (stage r = RUNNING) then default [] (cpuset r) else [])
    ++ running_cpus rs.
Proof. reflexivity. Qed.

Lemma running_gpus_cons r rs :
  running_gpus (r :: rs) =
  (if decide (stage r = RUNNING) then default [] (gpuset r) else [])
    ++ running_gpus rs.
Proof. reflexivity. Qed.

Lemma running_assigned_cons r rs :
  running_assigned (r :: rs) ↔
  (stage r = RUNNING → is_Some (cpuset r) ∧ is_Some (gpuset r))
  ∧ running_assigned rs.
Proof.
  unfold running_assigned. split.
  - intros Hall. split.
    + apply Hall. left.
    + intros r' Hin. apply Hall. by right.
  - intros [Hr Hrs] r' Hin. apply elem_of_cons in Hin as [->|Hin]; auto.
Qed.

Lemma slice_to_nonneg {A} (l : list A) (k : Z) :
  0 ≤ k → slice_to l k = take (Z.to_nat k) l.
Proof. intros Hk. unfold slice_to. destruct (Z.ltb_spec k 0); [lia|done]. Qed.

Lemma NoDup_same_length (l k : list string) :
  NoDup l → NoDup k → (∀ x, x ∈ l ↔ x ∈ k) → length l = length k.
Proof. intros Hl Hk Heq. apply Permutation_length. by apply NoDup_Permutation. Qed.

Section allocator_facts.
Context {sets : PySetImpl}.

(** What the loop over the runs computes when it does not raise. *)
Lemma subtract_runs_Ok runs c0 g0 c1 g1 :
  subtract_runs runs (c0, g0) = Ok (c1, g1) →
  (NoDup c0 → NoDup c1) ∧ (NoDup g0 → NoDup g1)
  ∧ (∀ x, x ∈ c1 ↔ x ∈ c0 ∧ x ∉ running_cpus runs)
  ∧ (∀ x, x ∈ g1 ↔ x ∈ g0 ∧ x ∉ running_gpus runs)
  ∧ running_assigned runs.
Proof.
  revert c0 g0. induction runs as [|r rs IH]; intros c0 g0.
  - simpl. intros Heq. injection Heq as -> ->.
    split; [done|]. split; [done|].
    split; [|split].
    + intros x. split; [intros ?; split; [done|apply not_elem_of_nil] | by intros [? _]].
    + intros x. split; [intros ?; split; [done|apply not_elem_of_nil] | by intros [? _]].
    + intros r Hin. by apply elem_of_nil in Hin.
  - rewrite running_cpus_cons, running_gpus_cons, running_assigned_cons.
    cbn [subtract_runs]. unfold subtract_run.
    destruct (decide (stage r = RUNNING)) as [Hrun|Hrun]; simpl.
    + destruct (cpuset r) as [rc|] eqn:Hc; [|done].
      destruct (gpuset r) as [rg|] eqn:Hg; [|done]. simpl.
      intros Hrs. apply IH in Hrs as (Hnc & Hng & Hec & Heg & Hass).
      split; [intros ?; by apply Hnc, set_isub_NoDup|].
      split; [intros ?; by apply Hng, set_isub_NoDup|].
      split; [|split; [|split; [by eauto|done]]].
      * intros x. rewrite Hec, set_isub_elem, elem_of_app. tauto.
      * intros x. rewrite Heg, set_isub_elem, elem_of_app. tauto.
    + intros Hrs. apply IH in Hrs as (Hnc & Hng & Hec & Heg & Hass).
      split; [done|]. split; [done|].
      split; [done|]. split; [done|]. split; [done|done].
Qed.
End allocator_facts.

(** ** What the message of the allocator says *)

(** [pretty] writes a number as [%d] does: in digits, with a sign when it
    is negative. *)
Lemma numeral_pretty_N_char d :
  (d < 10)%N → numeral_char (pretty_N_char d) = true.
Proof.
  intros Hd.
  assert (d = 0 ∨ d = 1 ∨ d = 2 ∨ d = 3 ∨ d = 4 ∨ d = 5 ∨ d = 6 ∨ d = 7
          ∨ d = 8 ∨ d = 9)%N as Hcases by lia.
  repeat (destruct Hcases as [->|Hcases]; [reflexivity|]). by subst.
Qed.

Lemma numeral_pretty_N_go x s :
  numeral s = true → numeral (pretty_N_go x s) = true.
Proof.
  revert s. induction (N.lt_wf_0 x) as [x _ IH]; intros s Hs.
  destruct (decide (x = 0%N)) as [->|Hx]; [by rewrite pretty_N_go_0|].
  rewrite pretty_N_go_step by lia. apply IH.
  - apply N.div_lt; lia.
  - cbn [numeral]. rewrite numeral_pretty_N_char, Hs; [done|].
    apply N.mod_lt; lia.
Qed.

Lemma numeral_pretty_N (n : N) : numeral (pretty n) = true.
Proof.
  unfold pretty, pretty_N. destruct (decide (n = 0%N)); [done|].
  by apply numeral_pretty_N_go.
Qed.

Lemma numeral_pretty (z : Z) : numeral (pretty z) = true.
Proof.
  destruct z as [|p|p]; unfold pretty, pretty_Z; [done| |].
  - apply numeral_pretty_N.
  - simpl. apply numeral_pretty_N.
Qed.

(** A numeral followed by a character that is not of a numeral can be read
    back in one way only. *)
Lemma numeral_cut s1 s2 d1 d2 r1 r2 :
  numeral s1 = true → numeral s2 = true →
  numeral_char d1 = false → numeral_char d2 = false →
  s1 +:+ String d1 r1 = s2 +:+ String d2 r2 →
  s1 = s2 ∧ r1 = r2.
Proof.
  revert s2. induction s1 as [|a s1 IH]; intros [|b s2] H1 H2 Hd1 Hd2 Heq;
    simpl in *.
  - by injection Heq as _ ->.
  - injection Heq as -> _. apply andb_true_iff in H2 as [H2 _]. congruence.
  - injection Heq as -> _. apply andb_true_iff in H1 as [H1 _]. congruence.
  - injection Heq as -> Heq.
    apply andb_true_iff in H1 as [_ H1]. apply andb_true_iff in H2 as [_ H2].
    destruct (IH s2 H1 H2 Hd1 Hd2 Heq) as [-> ->]. done.
Qed.

(** The message of the allocator can be read back: it fixes the resource
    and the three counts. *)
Lemma insufficient_message_inj what requested available total
    what' requested' available' total' :
  what ∈ ["CPUs"; "GPUs"] → what' ∈ ["CPUs"; "GPUs"] →
  insufficient_message what requested available total
  = insufficient_message what' requested' available' total' →
  what = what' ∧ requested = requested' ∧ available = available'
  ∧ total = total'.
Proof.
  intros Hw Hw' Heq. unfold insufficient_message in Heq.
  assert (what = what'
          ∧ pretty requested +:+ String ")" (" than available ("
              +:+ pretty available +:+ " currently out of " +:+ pretty total
              +:+ " on the machine)")
            = pretty requested' +:+ String ")" (" than available ("
              +:+ pretty available' +:+ " currently out of "
              +:+ pretty total' +:+ " on the machine)")) as [<- Hreq].
  { apply elem_of_cons in Hw as [->|Hw];
      [|apply elem_of_cons in Hw as [->|Hw]; [|by apply elem_of_nil in Hw]];
      (apply elem_of_cons in Hw' as [->|Hw'];
        [|apply elem_of_cons in Hw' as [->|Hw'];
          [|by apply elem_of_nil in Hw']]);
      simpl in Heq; try discriminate Heq; by injection Heq. }
  split; [done|].
  apply numeral_cut in Hreq as [Hreq Hrest];
    [|apply numeral_pretty|apply numeral_pretty|done|done].
  simpl in Hrest.
  assert (pretty available +:+ String " " ("currently out of "
            +:+ pretty total +:+ " on the machine)")
          = pretty available' +:+ String " " ("currently out of "
            +:+ pretty total' +:+ " on the machine)")) as Hav
    by (by injection Hrest).
  apply numeral_cut in Hav as [Hav Hrest'];
    [|apply numeral_pretty|apply numeral_pretty|done|done].
  simpl in Hrest'.
  assert (pretty total +:+ String " " "on the machine)"
          = pretty total' +:+ String " " "on the machine)") as Htot
    by (by injection Hrest').
  apply numeral_cut in Htot as [Htot _];
    [|apply numeral_pretty|apply numeral_pretty|done|done].
  by repeat split; apply (inj pretty).
Qed.

Section allocator_theorems.
Context {sets : PySetImpl}.

Lemma subtract_runs_total runs free :
  running_assigned runs → is_Ok (subtract_runs runs free).
Proof.
  revert free. induction runs as [|r rs IH]; intros free Hass; [done|].
  apply running_assigned_cons in Hass as [Hr Hrs].
  cbn [subtract_runs]. unfold subtract_run.
  destruct (decide (stage r = RUNNING)) as [Hrun|Hrun]; simpl; [|by apply IH].
  destruct (Hr Hrun) as [[rc ->] [rg ->]]. simpl. by apply IH.
Qed.

(** The local [cpuset] and [gpuset] after the loop enumerate the free
    indices. *)
Lemma free_after_loop self c1 g1 :
  subtract_runs (dict_values (_runs self))
    (set_of (_cpuset self), set_of (_gpuset self)) = Ok (c1, g1) →
  NoDup c1 ∧ NoDup g1 ∧ c1 ≡ₚ free_cpus self ∧ g1 ≡ₚ free_gpus self.
Proof.
  intros Hloop. apply subtract_runs_Ok in Hloop as (Hnc & Hng & Hec & Heg & _).
  specialize (Hnc (set_of_NoDup _)). specialize (Hng (set_of_NoDup _)).
  split; [done|]. split; [done|]. split.
  - apply NoDup_Permutation; [done| |].
    + apply NoDup_list_difference, NoDup_remove_dups.
    + intros x. unfold free_cpus.
      by rewrite Hec, set_of_elem, list_elem_of_difference, elem_of_remove_dups.
  - apply NoDup_Permutation; [done| |].
    + apply NoDup_list_difference, NoDup_remove_dups.
    + intros x. unfold free_gpus.
      by rewrite Heg, set_of_elem, list_elem_of_difference, elem_of_remove_dups.
Qed.

Lemma propose_set_elem resource_set k x :
  x ∈ propose_set resource_set k ↔ x ∈ slice_to resource_set k.
Proof.
  unfold propose_set. rewrite set_of_elem.
  replace (py_str <$> slice_to resource_set k) with (slice_to resource_set k);
    [done|].
  symmetry. apply list_fmap_id.
Qed.

Lemma propose_set_length resource_set k :
  NoDup resource_set → 0 ≤ k ≤ Z.of_nat (length resource_set) →
  NoDup (propose_set resource_set k)
  ∧ Z.of_nat (length (propose_set resource_set k)) = k.
Proof.
  intros Hnd Hk. split; [apply set_of_NoDup|].
  assert (NoDup (take (Z.to_nat k) resource_set)) as Hnt.
  { eapply sublist_NoDup; [done|apply sublist_take]. }
  rewrite (NoDup_same_length _ (take (Z.to_nat k) resource_set)).
  - rewrite length_take_le; lia.
  - apply set_of_NoDup.
  - done.
  - intros x. rewrite propose_set_elem, slice_to_nonneg; [done|lia].
Qed.

Lemma len_lt_spec {A} (l : list A) (n : Z) :
  len_lt l n = true ↔ Z.of_nat (length l) < n.
Proof. unfold len_lt. apply Z.ltb_lt. Qed.

Lemma len_lt_false {A} (l : list A) (n : Z) :
  len_lt l n = false ↔ n ≤ Z.of_nat (length l).
Proof. unfold len_lt. apply Z.ltb_ge. Qed.

(** The allocator never changes [self]. *)
Lemma assign_cpu_and_gpu_sets_self self c g :
  (assign_cpu_and_gpu_sets self c g).2 = self.
Proof.
  unfold assign_cpu_and_gpu_sets.
  destruct (subtract_runs _ _) as [[c1 g1]|e]; [|done].
  destruct (len_lt c1 c); [done|]. by destruct (len_lt g1 g).
Qed.

(** C1: a call that does not raise returns a cpuset of exactly
    [request_cpus] elements and a gpuset of exactly [request_gpus] elements
    (the counts being counts, that is not negative), every index of either
    is one of the node's that no run in stage RUNNING holds, and [self],
    hence the registry and every run state in it, is as before. *)
Theorem assign_cpu_and_gpu_sets_contract self c g cs gs self' :
  0 ≤ c → 0 ≤ g →
  assign_cpu_and_gpu_sets self c g = (Ok (cs, gs), self') →
  (NoDup cs ∧ Z.of_nat (length cs) = c)
  ∧ (NoDup gs ∧ Z.of_nat (length gs) = g)
  ∧ (∀ x, x ∈ cs →
       x ∈ _cpuset self ∧ x ∉ running_cpus (dict_values (_runs self)))
  ∧ (∀ x, x ∈ gs →
       x ∈ _gpuset self ∧ x ∉ running_gpus (dict_values (_runs self)))
  ∧ self' = self.
Proof.
  intros Hc Hg. unfold assign_cpu_and_gpu_sets.
  destruct (subtract_runs _ _) as [[c1 g1]|e] eqn:Hloop; [|done].
  pose proof (subtract_runs_Ok _ _ _ _ _ Hloop) as (Hnc & Hng & Hec & Heg & _).
  specialize (Hnc (set_of_NoDup _)). specialize (Hng (set_of_NoDup _)).
  destruct (len_lt c1 c) eqn:Hlc; [done|].
  destruct (len_lt g1 g) eqn:Hlg; [done|].
  apply len_lt_false in Hlc. apply len_lt_false in Hlg.
  intros Heq. injection Heq as <- <- <-.
  split; [apply propose_set_length; [done|lia]|].
  split; [apply propose_set_length; [done|lia]|].
  split; [|split; [|done]].
  - intros x Hx. apply propose_set_elem in Hx.
    rewrite slice_to_nonneg in Hx by done.
    apply (subseteq_take (Z.to_nat c) c1), Hec in Hx as [Hx ?].
    split; [by apply set_of_elem|done].
  - intros x Hx. apply propose_set_elem in Hx.
    rewrite slice_to_nonneg in Hx by done.
    apply (subseteq_take (Z.to_nat g) g1), Heg in Hx as [Hx ?].
    split; [by apply set_of_elem|done].
Qed.
(** What the two length tests of the allocator raise. *)
Lemma assign_cpu_and_gpu_sets_raise self c g :
  running_assigned (dict_values (_runs self)) →
  let available_cpus := Z.of_nat (length (free_cpus self)) in
  let available_gpus := Z.of_nat (length (free_gpus self)) in
  let r := assign_cpu_and_gpu_sets self c g in
  (raises r.1 ↔ available_cpus < c ∨ available_gpus < g)
  ∧ (available_cpus < c →
     r.1 = Raise (Exception (insufficient_message "CPUs" c available_cpus
                               (Z.of_nat (length (_cpuset self))))))
  ∧ (c ≤ available_cpus → available_gpus < g →
     r.1 = Raise (Exception (insufficient_message "GPUs" g available_gpus
                               (Z.of_nat (length (_gpuset self)))))).
Proof.
  intros Hass. cbv zeta. split; [|split].
  all: unfold assign_cpu_and_gpu_sets.
  all: pose proof (subtract_runs_total (dict_values (_runs self))
         (set_of (_cpuset self), set_of (_gpuset self)) Hass) as Hok.
  all: destruct (subtract_runs _ _) as [[c1 g1]|e] eqn:Hloop; [|done].
  all: apply free_after_loop in Hloop as (_ & _ & Hpc & Hpg).
  all: rewrite <- ?(Permutation_length Hpc), <- ?(Permutation_length Hpg).
  all: destruct (len_lt c1 c) eqn:Hlc;
         [apply len_lt_spec in Hlc|apply len_lt_false in Hlc];
       (destruct (len_lt g1 g) eqn:Hlg;
         [apply len_lt_spec in Hlg|apply len_lt_false in Hlg]); simpl.
  all: try (split; [intros _; lia | done]).
  all: try (split; [done | lia]).
  all: try done.
  all: intros; lia.
Qed.

(** C6: with every run in RUNNING holding its sets (invariant 2), the
    allocator raises exactly when fewer CPU indices are free than requested
    or fewer GPU indices are free than requested.  The message of the error
    is the text of the source with the requested count, the count available
    now and the total of the node written out in decimal, for CPUs when
    they fall short and for GPUs otherwise; it can be read back: another
    failing call raises the same error only if it fell short of the same
    resource with the same three counts.  [self] is as before. *)
Theorem assign_cpu_and_gpu_sets_insufficient self c g :
  running_assigned (dict_values (_runs self)) →
  let available_cpus := Z.of_nat (length (free_cpus self)) in
  let available_gpus := Z.of_nat (length (free_gpus self)) in
  let r := assign_cpu_and_gpu_sets self c g in
  (raises r.1 ↔ available_cpus < c ∨ available_gpus < g)
  ∧ (available_cpus < c →
     r.1 = Raise (Exception
             ("Requested more CPUs (" +:+ pretty c
              +:+ ") than available (" +:+ pretty available_cpus
              +:+ " currently out of "
              +:+ pretty (Z.of_nat (length (_cpuset self)))
              +:+ " on the machine)")))
  ∧ (c ≤ available_cpus → available_gpus < g →
     r.1 = Raise (Exception
             ("Requested more GPUs (" +:+ pretty g
              +:+ ") than available (" +:+ pretty available_gpus
              +:+ " currently out of "
              +:+ pretty (Z.of_nat (length (_gpuset self)))
              +:+ " on the machine)")))
  ∧ (∀ self' c' g',
       running_assigned (dict_values (_runs self')) →
       raises r.1 → (assign_cpu_and_gpu_sets self' c' g').1 = r.1 →
       (available_cpus < c →
        c' = c ∧ Z.of_nat (length (free_cpus self')) = available_cpus
        ∧ Z.of_nat (length (_cpuset self'))
          = Z.of_nat (length (_cpuset self)))
       ∧ (c ≤ available_cpus →
          c' ≤ Z.of_nat (length (free_cpus self'))
          ∧ g' = g ∧ Z.of_nat (length (free_gpus self')) = available_gpus
          ∧ Z.of_nat (length (_gpuset self'))
            = Z.of_nat (length (_gpuset self))))
  ∧ r.2 = self.
Proof.
  intros Hass. cbv zeta.
  destruct (assign_cpu_and_gpu_sets_raise self c g Hass)
    as (Hiff & Hcpus & Hgpus).
  split; [exact Hiff|]. split; [exact Hcpus|]. split; [exact Hgpus|].
  split; [|apply assign_cpu_and_gpu_sets_self].
  intros self' c' g' Hass' Hraise Heq.
  destruct (assign_cpu_and_gpu_sets_raise self' c' g' Hass')
    as (Hiff' & Hcpus' & Hgpus').
  assert (Z.of_nat (length (free_cpus self')) < c'
          ∨ c' ≤ Z.of_nat (length (free_cpus self'))
            ∧ Z.of_nat (length (free_gpus self')) < g') as Hcase'.
  { rewrite <- Heq in Hraise. apply Hiff' in Hraise. lia. }
  assert (∀ what what' a b t a' b' t',
            what ∈ ["CPUs"; "GPUs"] → what' ∈ ["CPUs"; "GPUs"] →
            @Raise (pyset * pyset) (Exception (insufficient_message what' a' b' t'))
            = Raise (Exception (insufficient_message what a b t)) →
            what = what' ∧ a = a' ∧ b = b' ∧ t = t') as Hread.
  { intros what what' a b t a' b' t' Hw Hw' Hmsg.
    assert (insufficient_message what a b t
            = insufficient_message what' a' b' t') as Hm by congruence.
    by apply insufficient_message_inj in Hm. }
  split.
  - intros Hlt. rewrite (Hcpus Hlt) in Heq.
    destruct Hcase' as [Hlt'|[Hle' Hlt']].
    + rewrite (Hcpus' Hlt') in Heq.
      apply Hread in Heq as (_ & -> & -> & ->); [done|repeat constructor..].
    + rewrite (Hgpus' Hle' Hlt') in Heq.
      apply Hread in Heq as (Hwhat & _); [done|repeat constructor..].
  - intros Hle. apply Hiff in Hraise.
    assert (Z.of_nat (length (free_gpus self)) < g) as Hlt by lia.
    rewrite (Hgpus Hle Hlt) in Heq.
    destruct Hcase' as [Hlt'|[Hle' Hlt']].
    + rewrite (Hcpus' Hlt') in Heq.
      apply Hread in Heq as (Hwhat & _); [done|repeat constructor..].
    + rewrite (Hgpus' Hle' Hlt') in Heq.
      apply Hread in Heq as (_ & -> & -> & ->); [done|repeat constructor..].
Qed.

(** C7: each node state fixes one enumeration of its free CPU indices and
    one of its free GPU indices; a call that returns proposes the first
    [request_cpus] and the first [request_gpus] of them; and a second call
    with the same counts, made in the state the first one leaves, has the
    same outcome. *)
Theorem assign_cpu_and_gpu_sets_deterministic self :
  ∃ order_cpus order_gpus,
    order_cpus ≡ₚ free_cpus self ∧ order_gpus ≡ₚ free_gpus self
    ∧ ∀ c g,
        let first := assign_cpu_and_gpu_sets self c g in
        let second := assign_cpu_and_gpu_sets first.2 c g in
        second = first
        ∧ ∀ cs gs, 0 ≤ c → 0 ≤ g → first.1 = Ok (cs, gs) →
            (∀ x, x ∈ cs ↔ x ∈ take (Z.to_nat c) order_cpus)
            ∧ (∀ x, x ∈ gs ↔ x ∈ take (Z.to_nat g) order_gpus).
Proof.
  destruct (subtract_runs (dict_values (_runs self))
              (set_of (_cpuset self), set_of (_gpuset self)))
    as [[c1 g1]|e] eqn:Hloop.
  - pose proof (free_after_loop _ _ _ Hloop) as (_ & _ & Hpc & Hpg).
    exists c1, g1. split; [done|]. split; [done|].
    intros c g. cbv zeta. rewrite assign_cpu_and_gpu_sets_self.
    split; [done|]. intros cs gs Hc Hg.
    unfold assign_cpu_and_gpu_sets. rewrite Hloop.
    destruct (len_lt c1 c); [done|]. destruct (len_lt g1 g); [done|].
    simpl. intros Heq. injection Heq as <- <-.
    split; intros x; rewrite propose_set_elem, slice_to_nonneg; done.
  - exists (free_cpus self), (free_gpus self). split; [done|]. split; [done|].
    intros c g. cbv zeta. rewrite assign_cpu_and_gpu_sets_self.
    split; [done|]. intros cs gs _ _.
    unfold assign_cpu_and_gpu_sets. by rewrite Hloop.
Qed.
End allocator_theorems.

Lemma assign_cpu_and_gpu_sets_contract_witness :
  (0 ≤ 2 ∧ 0 ≤ 1
   ∧ assign_cpu_and_gpu_sets (sets := ordered_sets) node_ab 2 1
     = (Ok (["2"; "3"], ["1"]), node_ab))
  ∧ (NoDup ["2"; "3"] ∧ Z.of_nat (length ["2"; "3"]) = 2)
  ∧ (NoDup ["1"] ∧ Z.of_nat (length ["1"]) = 1)
  ∧ (∀ x, x ∈ ["2"; "3"] →
       x ∈ _cpuset node_ab ∧ x ∉ running_cpus (dict_values (_runs node_ab)))
  ∧ (∀ x, x ∈ ["1"] →
       x ∈ _gpuset node_ab ∧ x ∉ running_gpus (dict_values (_runs node_ab)))
  ∧ node_ab = node_ab.
Proof.
  split; [split; [lia|split; [lia|reflexivity]]|].
  apply (assign_cpu_and_gpu_sets_contract (sets := ordered_sets) node_ab 2 1);
    [lia|lia|reflexivity].
Defined.

Lemma assign_cpu_and_gpu_sets_insufficient_witness :
  running_assigned (dict_values (_runs node_ab))
  ∧ (assign_cpu_and_gpu_sets (sets := ordered_sets) node_ab 3 0).1
    = Raise (Exception
        "Requested more CPUs (3) than available (2 currently out of 4 on the machine)")
  ∧ (assign_cpu_and_gpu_sets (sets := ordered_sets) node_ab 1 2).1
    = Raise (Exception
        "Requested more GPUs (2) than available (1 currently out of 2 on the machine)")
  ∧ (assign_cpu_and_gpu_sets (sets := ordered_sets) node_ab 1 3).1
    = Raise (Exception
        "Requested more GPUs (3) than available (1 currently out of 2 on the machine)").
Proof.
  assert (running_assigned (dict_values (_runs node_ab))) as Hass.
  { intros r Hin Hrun. simpl in Hin.
    apply elem_of_cons in Hin as [->|Hin]; [split; eexists; reflexivity|].
    apply elem_of_cons in Hin as [->|Hin]; [discriminate Hrun|].
    by apply elem_of_nil in Hin. }
  split; [exact Hass|]. split; [|split].
  - apply (assign_cpu_and_gpu_sets_insufficient (sets := ordered_sets) node_ab
             3 0 Hass).
    vm_compute. reflexivity.
  - apply (assign_cpu_and_gpu_sets_insufficient (sets := ordered_sets) node_ab
             1 2 Hass); vm_compute; [discriminate|reflexivity].
  - apply (assign_cpu_and_gpu_sets_insufficient (sets := ordered_sets) node_ab
             1 3 Hass); vm_compute; [discriminate|reflexivity].
Defined.

Lemma assign_cpu_and_gpu_sets_deterministic_witness :
  ∃ order_cpus order_gpus,
    order_cpus ≡ₚ free_cpus node_ab ∧ order_gpus ≡ₚ free_gpus node_ab
    ∧ (0 ≤ 2 ∧ 0 ≤ 1
       ∧ (assign_cpu_and_gpu_sets (sets := ordered_sets) node_ab 2 1).1
         = Ok (["2"; "3"], ["1"]))
    ∧ assign_cpu_and_gpu_sets (sets := ordered_sets)
        (assign_cpu_and_gpu_sets (sets := ordered_sets) node_ab 2 1).2 2 1
      = assign_cpu_and_gpu_sets (sets := ordered_sets) node_ab 2 1
    ∧ (∀ x, x ∈ ["2"; "3"] ↔ x ∈ take 2 order_cpus)
    ∧ (∀ x, x ∈ ["1"] ↔ x ∈ take 1 order_gpus).
Proof.
  destruct (assign_cpu_and_gpu_sets_deterministic (sets := ordered_sets) node_ab)
    as (order_cpus & order_gpus & Hc & Hg & Hcalls).
  exists order_cpus, order_gpus.
  split; [exact Hc|]. split; [exact Hg|].
  split; [split; [lia|split; [lia|reflexivity]]|].
  destruct (Hcalls 2 1) as [Hsame Hfirst].
  split; [exact Hsame|].
  apply (Hfirst ["2"; "3"] ["1"]); [lia|lia|reflexivity].
Defined.

(** Outside the contract: a negative count does not raise, and the slice
    then drops elements from the end of the free list. *)
Lemma assign_cpu_and_gpu_sets_negative_count :
  (assign_cpu_and_gpu_sets (sets := ordered_sets) node_ab (-1) 0).1
  = Ok (["2"], []).
Proof. reflexivity. Qed.

(** ** [mark_finalized] *)

(** C9: [mark_finalized] never raises.  For a registered UUID the run
    under that UUID gets [finalized = True] and keeps every other field,
    every other run and the order of the registry stay, and so does the
    rest of the manager; for an unknown UUID nothing changes at all. *)
Theorem mark_finalized_spec self run_uuid :
  (mark_finalized self run_uuid).1 = Ok ()
  ∧ match dict_get (_runs self) run_uuid with
    | Some run_state =>
        ∃ run_state',
          dict_get (_runs (mark_finalized self run_uuid).2) run_uuid
            = Some run_state'
          ∧ finalized run_state' = true
          ∧ but_finalized run_state' = but_finalized run_state
          ∧ (∀ other, other ≠ run_uuid →
               dict_get (_runs (mark_finalized self run_uuid).2) other
               = dict_get (_runs self) other)
          ∧ dict_keys (_runs (mark_finalized self run_uuid).2)
            = dict_keys (_runs self)
          ∧ but_runs (mark_finalized self run_uuid).2 = but_runs self
    | None => (mark_finalized self run_uuid).2 = self
    end.
Proof.
  unfold mark_finalized, dict_contains, getitem.
  destruct (dict_get (_runs self) run_uuid) as [run_state|] eqn:Hget; simpl.
  - split; [done|]. exists (replace_finalized run_state).
    split; [apply dict_get_set_eq|]. split; [done|]. split; [done|].
    split; [intros other Hne; by apply dict_get_set_ne|].
    split; [|done]. apply dict_keys_set_present. by rewrite Hget.
  - done.
Qed.

Lemma mark_finalized_spec_witness :
  (mark_finalized node_ab "0xa1").1 = Ok ()
  ∧ (∃ run_state',
       dict_get (_runs (mark_finalized node_ab "0xa1").2) "0xa1"
         = Some run_state'
       ∧ finalized run_state' = true
       ∧ but_finalized run_state' = but_finalized run_a1)
  ∧ ("0xb2" ≠ "0xa1"
     ∧ dict_get (_runs (mark_finalized node_ab "0xa1").2) "0xb2" = Some run_b2)
  ∧ (mark_finalized node_ab "0xff").2 = node_ab.
Proof.
  pose proof (mark_finalized_spec node_ab "0xa1") as [Hok Hrun].
  pose proof (mark_finalized_spec node_ab "0xff") as [_ Hnone].
  change (dict_get (_runs node_ab) "0xa1") with (Some run_a1) in Hrun.
  change (dict_get (_runs node_ab) "0xff") with (@None LocalRunState) in Hnone.
  destruct Hrun as (run_state' & Hget & Hfin & Hsame & Hother & _).
  split; [exact Hok|].
  split; [exists run_state'; split; [exact Hget|split; [exact Hfin|exact Hsame]]|].
  split; [|exact Hnone].
  assert ("0xb2" ≠ "0xa1") as Hne by discriminate.
  split; [exact Hne|]. rewrite (Hother "0xb2" Hne). reflexivity.
Defined.

(** ** [kill], [read], [write] on an unknown UUID *)

(** For a relative [path] and a directory name that is neither empty nor
    ends in a separator, [os.path.join] puts one separator between the
    two. *)
Lemma join_relative bundle_dir path :
  PosixPath.startswith_sep path = false →
  bundle_dir ≠ "" → PosixPath.endswith_sep bundle_dir = false →
  PosixPath.join bundle_dir path = bundle_dir +:+ "/" +:+ path.
Proof.
  intros Hp Hne He. unfold PosixPath.join. rewrite Hp, He.
  by rewrite bool_decide_eq_false_2.
Qed.

Section io_theorems.
Context {Host Args Reply : Type}.
Variable reader_read :
  LocalRunState → string → Args → Reply → Host → result unit * Host.
Variable open_write : string → string → Host → result unit * Host.

(** C10: for a UUID that is not in the registry, [kill], [read] and
    [write] raise [KeyError] and leave the manager (and the host) as they
    were, where [mark_finalized] returns normally. *)
Theorem unknown_uuid_KeyError self run_uuid path args reply contents host :
  dict_get (_runs self) run_uuid = None →
  kill self run_uuid = (Raise (KeyError run_uuid), self)
  ∧ read reader_read self run_uuid path args reply host
    = (Raise (KeyError run_uuid), self, host)
  ∧ write open_write self run_uuid path contents host
    = (Raise (KeyError run_uuid), self, host)
  ∧ mark_finalized self run_uuid = (Ok (), self).
Proof.
  intros Hget. unfold kill, read, write, mark_finalized, dict_contains, getitem.
  by rewrite Hget.
Qed.

(** ** [write] *)

(** X21: for a registered run, a path whose [normpath] is the child path
    of one of the bundle's dependencies makes [write] return without
    raising and without touching the host, however the path is spelt; any
    other path makes it open [os.path.join(bundle_path, path)] for
    writing, once, and write the contents there, with whatever outcome
    that has; for a relative path and a bundle directory that is not
    empty and does not end in a separator, that file is
    [<bundle_path>/<path>].  The manager is as before in every case. *)
Theorem write_guard self run_uuid run_state path contents host :
  dict_get (_runs self) run_uuid = Some run_state →
  (PosixPath.normpath path ∈ child_path <$> dependencies (bundle run_state) →
   write open_write self run_uuid path contents host = (Ok (), self, host))
  ∧ (PosixPath.normpath path ∉ child_path <$> dependencies (bundle run_state) →
     write open_write self run_uuid path contents host
     = ((open_write (PosixPath.join (bundle_path run_state) path) contents
           host).1,
        self,
        (open_write (PosixPath.join (bundle_path run_state) path) contents
           host).2))
  ∧ (PosixPath.normpath path ∉ child_path <$> dependencies (bundle run_state) →
     PosixPath.startswith_sep path = false →
     bundle_path run_state ≠ "" →
     PosixPath.endswith_sep (bundle_path run_state) = false →
     write open_write self run_uuid path contents host
     = ((open_write (bundle_path run_state +:+ "/" +:+ path) contents host).1,
        self,
        (open_write (bundle_path run_state +:+ "/" +:+ path) contents
           host).2)).
Proof.
  intros Hget.
  assert (PosixPath.normpath path
            ∉ child_path <$> dependencies (bundle run_state) →
          write open_write self run_uuid path contents host
          = ((open_write (PosixPath.join (bundle_path run_state) path)
                contents host).1,
             self,
             (open_write (PosixPath.join (bundle_path run_state) path)
                contents host).2)) as Hother.
  { intros Hin. unfold write, getitem. rewrite Hget.
    rewrite bool_decide_eq_false_2 by done. by destruct (open_write _ _ _). }
  split; [|split; [exact Hother|]].
  - intros Hin. unfold write, getitem. rewrite Hget.
    by rewrite bool_decide_eq_true_2.
  - intros Hin Hrel Hne Hend. rewrite (Hother Hin).
    by rewrite join_relative.
Qed.
End io_theorems.

Lemma unknown_uuid_KeyError_witness :
  dict_get (_runs node_ab) "0xff" = None
  ∧ kill node_ab "0xff" = (Raise (KeyError "0xff"), node_ab)
  ∧ read sample_reader_read node_ab "0xff" "stdout" () () []
    = (Raise (KeyError "0xff"), node_ab, [])
  ∧ write sample_open_write node_ab "0xff" "notes.txt" "hello" []
    = (Raise (KeyError "0xff"), node_ab, [])
  ∧ mark_finalized node_ab "0xff" = (Ok (), node_ab).
Proof.
  split; [reflexivity|].
  apply (unknown_uuid_KeyError sample_reader_read sample_open_write node_ab
           "0xff" "stdout" () () "hello" []).
  reflexivity.
Defined.

Lemma write_guard_witness :
  dict_get (_runs node_ab) "0xa1" = Some run_a1
  ∧ write sample_open_write node_ab "0xa1" "./lib/../data" "hello" []
    = (Ok (), node_ab, [])
  ∧ write sample_open_write node_ab "0xa1" "notes.txt" "hello" []
    = (Ok (), node_ab, [("/work/runs/0xa1/notes.txt", "hello")]).
Proof.
  split; [reflexivity|].
  pose proof (write_guard sample_open_write node_ab "0xa1" run_a1
                "./lib/../data" "hello" [] eq_refl) as [Hdep _].
  pose proof (write_guard sample_open_write node_ab "0xa1" run_a1
                "notes.txt" "hello" [] eq_refl) as (_ & _ & Hother).
  split.
  - apply Hdep. apply (bool_decide_unpack _). vm_compute. exact I.
  - rewrite Hother; [reflexivity| |reflexivity|discriminate|reflexivity].
    apply (bool_decide_unpack _). vm_compute. exact I.
Defined.

(** C5, where the code departs from it: run [0xa1] has the bundle
    directory [/work/runs/0xa1] and a dependency mounted at [data].  For
    an absolute path [os.path.join] drops the bundle directory, so
    whatever the file system does, [write] opens [/tmp/abs.txt] itself,
    outside the bundle, and not a file under [/work/runs/0xa1/]; and the
    absolute name of the mount point is not refused, since its [normpath]
    is not [data]: the contents go to [/work/runs/0xa1/data]. *)
Theorem write_absolute_path_escapes :
  dict_get (_runs node_ab) "0xa1" = Some run_a1
  ∧ bundle_path run_a1 = "/work/runs/0xa1"
  ∧ "data" ∈ child_path <$> dependencies (bundle run_a1)
  ∧ (∀ (open_write : string → string → sample_host
                     → result unit * sample_host) contents host,
       write open_write node_ab "0xa1" "/tmp/abs.txt" contents host
       = ((open_write "/tmp/abs.txt" contents host).1, node_ab,
          (open_write "/tmp/abs.txt" contents host).2)
       ∧ write open_write node_ab "0xa1" "/work/runs/0xa1/data" contents host
         = ((open_write "/work/runs/0xa1/data" contents host).1, node_ab,
            (open_write "/work/runs/0xa1/data" contents host).2))
  ∧ write sample_open_write node_ab "0xa1" "/tmp/abs.txt" "hello" []
    = (Ok (), node_ab, [("/tmp/abs.txt", "hello")])
  ∧ write sample_open_write node_ab "0xa1" "/work/runs/0xa1/data" "hello" []
    = (Ok (), node_ab, [("/work/runs/0xa1/data", "hello")]).
Proof.
  split; [reflexivity|]. split; [reflexivity|].
  split; [apply (bool_decide_unpack _); vm_compute; exact I|].
  split; [|split; reflexivity].
  intros open_write contents host. split.
  - change (write open_write node_ab "0xa1" "/tmp/abs.txt" contents host)
      with (let '(r, host') := open_write "/tmp/abs.txt" contents host in
            (r, node_ab, host')).
    by destruct (open_write _ _ _).
  - change (write open_write node_ab "0xa1" "/work/runs/0xa1/data" contents
              host)
      with (let '(r, host') :=
              open_write "/work/runs/0xa1/data" contents host in
            (r, node_ab, host')).
    by destruct (open_write _ _ _).
Qed.

(** ** [create_run] *)

Section create_run_theorems.
Variable realpath : string → string.

(** C8, as the code has it: [create_run] never raises; with the stopping
    flag set it leaves the manager as it is; otherwise it puts under the
    bundle's UUID a run state in PREPARING, not killed, not finished, not
    finalized, without container and without cpuset or gpuset, whose
    [bundle_path] is the canonical form ([os.path.realpath]) of the
    bundle's location on a shared file system and of
    [<work_dir>/runs/<uuid>] otherwise; nothing else in the manager
    changes. *)
Theorem create_run_spec self bundle resources now :
  (_stop self = true →
   create_run realpath self bundle resources now = (Ok (), self))
  ∧ (_stop self = false →
     ∃ run_state,
       create_run realpath self bundle resources now
       = (Ok (), with_runs (dict_set (_runs self) (uuid bundle) run_state) self)
       ∧ dict_get (_runs (create_run realpath self bundle resources now).2)
           (uuid bundle) = Some run_state
       ∧ stage run_state = PREPARING
       ∧ is_killed run_state = false
       ∧ finished run_state = false
       ∧ finalized run_state = false
       ∧ container run_state = None ∧ container_id run_state = None
       ∧ cpuset run_state = None ∧ gpuset run_state = None
       ∧ (_shared_file_system self = true →
          bundle_path run_state = realpath (location bundle))
       ∧ (_shared_file_system self = false →
          _bundles_dir self = PosixPath.join (_work_dir self) BUNDLES_DIR_NAME →
          bundle_path run_state
          = realpath (PosixPath.join
                        (PosixPath.join (_work_dir self) BUNDLES_DIR_NAME)
                        (uuid bundle)))).
Proof.
  unfold create_run. split; intros Hstop; rewrite Hstop; [done|].
  eexists. split; [reflexivity|]. simpl.
  split; [apply dict_get_set_eq|].
  repeat (split; [reflexivity|]).
  split; [by intros ->|]. by intros -> ->.
Qed.
End create_run_theorems.

Lemma create_run_spec_witness :
  (_stop node_stopped = true ∧ _stop node_ab = false
   ∧ _shared_file_system node_ab = false
   ∧ _bundles_dir node_ab = PosixPath.join (_work_dir node_ab) BUNDLES_DIR_NAME
   ∧ _shared_file_system node_shared = true)
  ∧ create_run sample_realpath node_stopped (sample_bundle "0xe5")
      sample_resources 1000 = (Ok (), node_stopped)
  ∧ (∃ run_state,
       dict_get
         (_runs (create_run sample_realpath node_ab (sample_bundle "0xe5")
                   sample_resources 1000).2) "0xe5" = Some run_state
       ∧ stage run_state = PREPARING
       ∧ bundle_path run_state = "/work/runs/0xe5")
  ∧ (∃ run_state,
       dict_get
         (_runs (create_run sample_realpath node_shared (sample_bundle "0xe5")
                   sample_resources 1000).2) "0xe5" = Some run_state
       ∧ bundle_path run_state = "/srv/bundles/0xe5").
Proof.
  split; [by repeat split|].
  split; [|split].
  - apply (create_run_spec sample_realpath node_stopped (sample_bundle "0xe5")
             sample_resources 1000). reflexivity.
  - destruct (create_run_spec sample_realpath node_ab (sample_bundle "0xe5")
                sample_resources 1000) as [_ Hrun].
    destruct (Hrun eq_refl)
      as (run_state & _ & Hget & Hstage & _ & _ & _ & _ & _ & _ & _ & _ & Hpath).
    exists run_state. split; [exact Hget|]. split; [exact Hstage|].
    rewrite (Hpath eq_refl eq_refl). reflexivity.
  - destruct (create_run_spec sample_realpath node_shared (sample_bundle "0xe5")
                sample_resources 1000) as [_ Hrun].
    destruct (Hrun eq_refl)
      as (run_state & _ & Hget & _ & _ & _ & _ & _ & _ & _ & _ & Hpath & _).
    exists run_state. split; [exact Hget|].
    rewrite (Hpath eq_refl). reflexivity.
Defined.

(** On a shared file system whose mount point is a symbolic link, the
    [bundle_path] of the new run is not the location the server assigned. *)
Lemma create_run_shared_location_counterexample :
  _stop node_shared = false ∧ _shared_file_system node_shared = true
  ∧ location (sample_bundle "0xe5") = "/mnt/bundles/0xe5"
  ∧ ∃ run_state,
      dict_get
        (_runs (create_run sample_realpath node_shared (sample_bundle "0xe5")
                  sample_resources 1000).2) "0xe5" = Some run_state
      ∧ bundle_path run_state = "/srv/bundles/0xe5"
      ∧ bundle_path run_state ≠ location (sample_bundle "0xe5").
Proof.
  split; [reflexivity|]. split; [reflexivity|]. split; [reflexivity|].
  eexists. split; [reflexivity|]. split; [reflexivity|]. discriminate.
Qed.

(** ** Snapshots: [save_state] then [load_state] *)

Lemma with_runs_same self : with_runs (_runs self) self = self.
Proof. by destruct self. Qed.

Lemma dict_set_middle {V} (pre post : dict V) k v0 v :
  k ∉ dict_keys pre →
  dict_set (pre ++ (k, v0) :: post) k v = pre ++ (k, v) :: post.
Proof.
  unfold dict_keys. induction pre as [|[k' v'] pre IH]; simpl; intros Hk.
  - by rewrite decide_True.
  - apply not_elem_of_cons in Hk as [Hne Hk].
    rewrite decide_False by done. by rewrite IH.
Qed.

Lemma dict_get_fmap {V W} (f : V → W) (d : dict V) k :
  dict_get (prod_map id f <$> d) k = f <$> dict_get d k.
Proof.
  induction d as [|[k' v'] d IH]; simpl; [done|].
  by destruct (decide (k' = k)).
Qed.

Lemma dict_keys_fmap {V W} (f : V → W) (d : dict V) :
  dict_keys (prod_map id f <$> d) = dict_keys d.
Proof.
  unfold dict_keys. rewrite <- list_fmap_compose. apply list_fmap_ext.
  by intros ? [? ?].
Qed.

(** What the fields of a restored run are. *)
Lemma restored_fields docker run_state :
  but_container (restored docker run_state) = but_container run_state
  ∧ (truthy (container_id run_state) = false →
     container (restored docker run_state) = None
     ∧ container_id (restored docker run_state) = container_id run_state)
  ∧ (∀ cid, container_id run_state = Some cid → cid ≠ "" →
     (cid ∈ docker →
      container (restored docker run_state) = Some (ContainerHandle cid)
      ∧ container_id (restored docker run_state) = Some cid)
     ∧ (cid ∉ docker →
        container (restored docker run_state) = None
        ∧ container_id (restored docker run_state) = None)).
Proof.
  unfold restored, truthy.
  destruct run_state as [? ? ? ? ? ? ? ? ? ? ? [cid|] ? ? ? ? ? ? ? ? ? ? ? ? ?];
    simpl.
  - destruct (bool_decide_reflect (cid = "")) as [->|Hne]; simpl.
    + split; [done|]. split; [done|]. by intros ? [= <-] ?.
    + split; [by destruct (bool_decide (cid ∈ docker))|]. split; [done|].
      intros ? [= <-] _.
      by destruct (bool_decide_reflect (cid ∈ docker)).
  - split; [done|]. split; [done|]. by intros ? [=].
Qed.

Section persistence_theorems.
Context {BundleDict ResourcesDict : Type}.
Variable bundle_to_dict : BundleInfo → BundleDict.
Variable bundle_from_dict : BundleDict → BundleInfo.
Variable resources_to_dict : RunResources → ResourcesDict.
Variable resources_from_dict : ResourcesDict → RunResources.
Hypothesis bundle_round_trip : ∀ b, bundle_from_dict (bundle_to_dict b) = b.
Hypothesis resources_round_trip :
  ∀ r, resources_from_dict (resources_to_dict r) = r.

Local Abbreviation saved := (saved_run bundle_to_dict resources_to_dict).
Local Abbreviation loaded := (loaded_run bundle_from_dict resources_from_dict).
Local Abbreviation load_all := (load_runs bundle_from_dict resources_from_dict).

(** One run through the comprehension of [save_state] and the loop body of
    [load_state]. *)
Lemma loaded_saved docker run_state :
  loaded docker (saved run_state) = Ok (restored docker run_state).
Proof.
  unfold loaded_run, saved_run, restored, truthy, containers_get.
  destruct run_state as [? ? b ? ? r ? ? ? ? ? [cid|] ? ? ? ? ? ? ? ? ? ? ? ? ?];
    simpl.
  - destruct (bool_decide (cid = "")); simpl;
      [unfold replace_bundle_resources; simpl;
       by rewrite bundle_round_trip, resources_round_trip|].
    destruct (bool_decide (cid ∈ docker)); simpl;
      unfold replace_bundle_resources; simpl;
      by rewrite bundle_round_trip, resources_round_trip.
  - unfold replace_bundle_resources; simpl.
    by rewrite bundle_round_trip, resources_round_trip.
Qed.

(** Loading into a registry that holds none of the saved keys appends the
    restored runs in order. *)
Lemma load_runs_fresh docker (todo : dict LocalRunState) self :
  NoDup (dict_keys (_runs self) ++ dict_keys todo) →
  load_all (prod_map id saved <$> todo) docker self
  = (Ok (), with_runs (_runs self ++ (prod_map id (restored docker) <$> todo))
              self).
Proof.
  revert self. induction todo as [|[k v] todo IH]; intros self Hnd; simpl.
  - by rewrite app_nil_r, with_runs_same.
  - rewrite loaded_saved.
    assert (k ∉ dict_keys (_runs self)) as Hk.
    { apply NoDup_app in Hnd as (_ & Hdisj & _).
      intros Hin. apply (Hdisj _ Hin). left. }
    rewrite dict_set_absent by by apply dict_get_None.
    rewrite IH; simpl.
    + by rewrite <- app_assoc.
    + unfold dict_keys in *. by rewrite fmap_app, <- app_assoc.
Qed.

(** Loading over the registry that was saved overwrites every run in
    place. *)
Lemma load_runs_in_place docker (pre todo : dict LocalRunState) self :
  NoDup (dict_keys pre ++ dict_keys todo) →
  _runs self = pre ++ todo →
  load_all (prod_map id saved <$> todo) docker self
  = (Ok (), with_runs (pre ++ (prod_map id (restored docker) <$> todo)) self).
Proof.
  revert pre self. induction todo as [|[k v] todo IH]; intros pre self Hnd Hruns;
    simpl.
  - rewrite <- Hruns. by rewrite with_runs_same.
  - rewrite loaded_saved.
    assert (k ∉ dict_keys pre) as Hk.
    { apply NoDup_app in Hnd as (_ & Hdisj & _).
      intros Hin. apply (Hdisj _ Hin). left. }
    rewrite Hruns, dict_set_middle by done.
    rewrite (IH (pre ++ [(k, restored docker v)])); simpl.
    + by rewrite <- app_assoc.
    + unfold dict_keys in *. rewrite fmap_app, <- app_assoc. done.
    + by rewrite <- app_assoc.
Qed.
(** C2: let the dictionary conversions of bundles and resources undo each
    other and the registry hold each UUID once.  After [save_state], a
    [load_state] (by a manager that starts with an empty registry, or by
    the same manager) returns without raising and leaves a registry with
    the same UUIDs in the same order, in which every run has all its
    fields, bundle and resources among them, as before, except the two
    about the container: where [container_id] is set the handle is the one
    the runtime gives for it, or [container_id] and the handle are [None]
    when the runtime does not know it; where it is not set there is no
    handle. *)
Theorem save_load_round_trip self starting committer docker :
  dict_wf (_runs self) →
  _runs starting = [] ∨ _runs starting = _runs self →
  ∃ self',
    load_state bundle_from_dict resources_from_dict starting
      (save_state bundle_to_dict resources_to_dict self committer) docker
    = (Ok (), self')
    ∧ but_runs self' = but_runs starting
    ∧ dict_keys (_runs self') = dict_keys (_runs self)
    ∧ ∀ run_uuid run_state,
        dict_get (_runs self) run_uuid = Some run_state →
        ∃ run_state',
          dict_get (_runs self') run_uuid = Some run_state'
          ∧ but_container run_state' = but_container run_state
          ∧ (truthy (container_id run_state) = false →
             container run_state' = None
             ∧ container_id run_state' = container_id run_state)
          ∧ (∀ cid, container_id run_state = Some cid → cid ≠ "" →
             (cid ∈ docker →
              container run_state' = Some (ContainerHandle cid)
              ∧ container_id run_state' = Some cid)
             ∧ (cid ∉ docker →
                container run_state' = None ∧ container_id run_state' = None)).
Proof.
  intros Hwf Hstart.
  exists (with_runs (prod_map id (restored docker) <$> _runs self) starting).
  split; [|split; [done|split; [apply dict_keys_fmap|]]].
  - unfold load_state, save_state, commit, load. simpl.
    destruct Hstart as [Hempty|Hsame].
    + rewrite load_runs_fresh; [by rewrite Hempty|]. by rewrite Hempty.
    + by rewrite (load_runs_in_place docker [] (_runs self)).
  - intros run_uuid run_state Hget. exists (restored docker run_state).
    split; [simpl; by rewrite dict_get_fmap, Hget|].
    apply restored_fields.
Qed.
End persistence_theorems.

Lemma sample_bundle_round_trip b :
  sample_bundle_from_dict (sample_bundle_to_dict b) = b.
Proof.
  destruct b as [u l c deps]. unfold sample_bundle_to_dict. simpl. f_equal.
  rewrite <- list_fmap_compose. rewrite <- (list_fmap_id deps) at 2.
  apply list_fmap_ext. by intros ? [? ? ?].
Qed.

Lemma sample_resources_round_trip r :
  sample_resources_from_dict (sample_resources_to_dict r) = r.
Proof. by destruct r. Qed.

Lemma save_load_round_trip_witness :
  (dict_wf (_runs node_abcd) ∧ _runs (sample_node []) = [])
  ∧ ∃ self',
      load_state sample_bundle_from_dict sample_resources_from_dict
        (sample_node [])
        (save_state sample_bundle_to_dict sample_resources_to_dict node_abcd
           None)
        ["c-a1"]
      = (Ok (), self')
      ∧ dict_keys (_runs self') = ["0xa1"; "0xb2"; "0xc3"; "0xd4"]
      ∧ (∃ run_state',
           dict_get (_runs self') "0xa1" = Some run_state'
           ∧ container run_state' = Some (ContainerHandle "c-a1"))
      ∧ (∃ run_state',
           dict_get (_runs self') "0xc3" = Some run_state'
           ∧ container_id run_state' = None).
Proof.
  assert (dict_wf (_runs node_abcd)) as Hwf.
  { apply (bool_decide_unpack _). vm_compute. exact I. }
  split; [split; [exact Hwf|reflexivity]|].
  destruct (save_load_round_trip sample_bundle_to_dict sample_bundle_from_dict
              sample_resources_to_dict sample_resources_from_dict
              sample_bundle_round_trip sample_resources_round_trip
              node_abcd (sample_node []) None ["c-a1"] Hwf
              (or_introl eq_refl))
    as (self' & Hload & _ & Hkeys & Hruns).
  exists self'. split; [exact Hload|]. split; [exact Hkeys|].
  split.
  - destruct (Hruns "0xa1" run_a1 eq_refl) as (r' & Hget & _ & _ & Hset).
    exists r'. split; [exact Hget|].
    destruct (Hset "c-a1" eq_refl) as [Hin _]; [discriminate|].
    apply Hin. apply (bool_decide_unpack _). vm_compute. exact I.
  - destruct (Hruns "0xc3" run_c3 eq_refl) as (r' & Hget & _ & _ & Hset).
    exists r'. split; [exact Hget|].
    destruct (Hset "c-c3" eq_refl) as [_ Hout]; [discriminate|].
    apply Hout. apply (bool_decide_unpack _). vm_compute. exact I.
Defined.

(** ** Shutdown: [kill_all] *)

Lemma dict_get_middle {V} (pre post : dict V) k v :
  k ∉ dict_keys pre → dict_get (pre ++ (k, v) :: post) k = Some v.
Proof.
  unfold dict_keys. induction pre as [|[k' v'] pre IH]; simpl; intros Hk.
  - by rewrite decide_True.
  - apply not_elem_of_cons in Hk as [Hne Hk].
    rewrite decide_False by done. by apply IH.
Qed.

(** The first loop marks every run, in place. *)
Lemma kill_each_in_place (pre todo : dict LocalRunState) self :
  NoDup (dict_keys pre ++ dict_keys todo) →
  _runs self = pre ++ todo →
  kill_each (dict_keys todo) self
  = (Ok (),
     with_runs (pre ++ (prod_map id (replace_killed "Worker stopped") <$> todo))
       self).
Proof.
  revert pre self.
  induction todo as [|[k v] todo IH]; intros pre self Hnd Hruns; simpl.
  - rewrite app_nil_r in Hruns |- *. rewrite <- Hruns.
    by rewrite with_runs_same.
  - assert (k ∉ dict_keys pre) as Hk.
    { apply NoDup_app in Hnd as (_ & Hdisj & _).
      intros Hin. apply (Hdisj _ Hin). left. }
    unfold getitem. rewrite Hruns, dict_get_middle, dict_set_middle by done.
    rewrite (IH (pre ++ [(k, replace_killed "Worker stopped" v)])); simpl.
    + by rewrite <- app_assoc.
    + unfold dict_keys in *. by rewrite fmap_app, <- app_assoc.
    + by rewrite <- app_assoc.
Qed.

Section kill_all_theorems.
Variable while_asleep : nat → LocalRunManager → LocalRunManager.

(** The second loop sleeps once per attempt, whatever the registry holds. *)
Lemma kill_wait_slept attempts self slept :
  (kill_wait while_asleep attempts self slept).2
  = (slept + length attempts)%nat.
Proof.
  revert self slept. induction attempts as [|a attempts IH]; intros; simpl.
  - lia.
  - rewrite IH. lia.
Qed.

(** [kill_all] marks every run as killed, with the message of the worker
    stopping, and then sleeps [KILL_TIMEOUT] times: there is no way out of
    the second loop before its last attempt, empty registry or not. *)
Lemma kill_all_waits_full_timeout self :
  dict_wf (_runs self) →
  ∃ self',
    kill_all while_asleep self = (Ok (), self', KILL_TIMEOUT)
    ∧ self'
      = (kill_wait while_asleep (seq 0 KILL_TIMEOUT)
           (with_runs
              (prod_map id (replace_killed "Worker stopped") <$> _runs self)
              self) 0%nat).1.
Proof.
  intros Hwf. unfold kill_all.
  rewrite (kill_each_in_place [] (_runs self)) by done.
  change ([] ++ ?l) with l.
  pose proof (kill_wait_slept (seq 0 KILL_TIMEOUT)
                (with_runs
                   (prod_map id (replace_killed "Worker stopped") <$> _runs self)
                   self) 0%nat) as Hslept.
  rewrite length_seq in Hslept.
  destruct (kill_wait _ _ _ _) as [self' slept].
  exists self'. cbn [fst snd] in *. by rewrite Hslept.
Qed.
End kill_all_theorems.

(** C4, where the code departs from it: on a registry that is already
    empty, with no other thread at work, [kill_all] returns only after
    sleeping the full [KILL_TIMEOUT] = 100 seconds. *)
Theorem kill_all_empty_registry_sleeps_100 :
  kill_all nobody_else node_empty = (Ok (), node_empty, 100%nat).
Proof. vm_compute. reflexivity. Qed.

(** ** The tick: [process_runs] *)

Section process_runs_theorems.
Variable transition :
  LocalRunManager → Docker → LocalRunState → LocalRunState * Docker.
Variable get_by_handle : Docker → Container → result Container.

(** The first loop never raises; it keeps the UUIDs and their order, and
    puts under each UUID what [transition] returns for the run that was
    there, called once, with the manager and the daemon as the calls
    before it left them. *)
Lemma transition_each_in_place (pre todo : dict LocalRunState) self docker :
  NoDup (dict_keys pre ++ dict_keys todo) →
  _runs self = pre ++ todo →
  ∃ todo' docker',
    transition_each transition (dict_keys todo) self docker
    = (Ok (), with_runs (pre ++ todo') self, docker')
    ∧ dict_keys todo' = dict_keys todo
    ∧ Forall2
        (λ old new,
           ∃ self_i docker_i,
             but_runs self_i = but_runs self
             ∧ dict_get (_runs self_i) old.1 = Some old.2
             ∧ new.2 = (transition self_i docker_i old.2).1)
        todo todo'.
Proof.
  revert pre self docker.
  induction todo as [|[k v] todo IH]; intros pre self docker Hnd Hruns.
  - exists [], docker. simpl. rewrite app_nil_r in Hruns |- *.
    rewrite <- Hruns, with_runs_same. by repeat split.
  - assert (k ∉ dict_keys pre) as Hk.
    { apply NoDup_app in Hnd as (_ & Hdisj & _).
      intros Hin. apply (Hdisj _ Hin). left. }
    cbn [dict_keys fmap list_fmap fst transition_each]. unfold getitem.
    rewrite Hruns, dict_get_middle by done.
    destruct (transition self docker v) as [v' docker1] eqn:Htr.
    rewrite dict_set_middle by done.
    destruct (IH (pre ++ [(k, v')])
                (with_runs (pre ++ (k, v') :: todo) self) docker1)
      as (todo' & docker' & Heach & Hkeys & Hall).
    { unfold dict_keys in *. by rewrite fmap_app, <- app_assoc. }
    { simpl. by rewrite <- app_assoc. }
    exists ((k, v') :: todo'), docker'. split; [|split].
    + unfold dict_keys in Heach. rewrite Heach. simpl.
      by rewrite <- app_assoc.
    + unfold dict_keys in *. simpl. f_equal. exact Hkeys.
    + constructor.
      * exists self, docker. split; [done|]. simpl.
        split; [by rewrite Hruns, dict_get_middle|by rewrite Htr].
      * eapply Forall2_impl; [exact Hall|].
        intros old new (self_i & docker_i & Hbut & Hget & Hnew).
        by exists self_i, docker_i.
Qed.

(** A tick that returns leaves no run in stage FINISHED. *)
Lemma process_runs_no_finished self docker self' docker' :
  process_runs transition get_by_handle self docker = (Ok (), self', docker') →
  ∀ run_state, run_state ∈ dict_values (_runs self') →
    stage run_state ≠ FINISHED.
Proof.
  unfold process_runs.
  destruct (transition_each _ _ _ _) as [[[[]|e] self1] docker1]; [|done].
  destruct (remove_each _ _ _) as [[[]|e] docker2]; [|done].
  intros [= <- <-] run_state Hin. simpl in Hin.
  apply dict_filter_values in Hin as [_ Hnf]. unfold not_finished in Hnf.
  apply negb_true_iff, bool_decide_eq_false in Hnf. done.
Qed.

(** A [None] in the list of the sweep is passed over: the daemon is not
    asked to remove anything for it. *)
Lemma remove_each_None ids docker :
  remove_each get_by_handle (None :: ids) docker
  = remove_each get_by_handle ids docker.
Proof. reflexivity. Qed.
End process_runs_theorems.

(** C3, where the code departs from it: run [0xc3] is in FINALIZING and
    has the id of a container that exists, but no live handle.  The sweep
    collects [run.container], which is [None], [containers.get(None)]
    raises [NullResource], the handler passes over it, and after the tick
    the container is still there. *)
Theorem process_runs_leaves_container :
  container_id run_c3 = Some "c-c3" ∧ stage run_c3 = FINALIZING
  ∧ ∀ get_by_handle,
      process_runs idle_transition get_by_handle node_c3 ["c-c3"]
      = (Ok (), node_c3, ["c-c3"]).
Proof. split; [reflexivity|]. split; [reflexivity|]. intros. reflexivity. Qed.

(** The same slip with a live handle in the run: if docker-py refuses a
    resource id that is not a string with [ValueError], the tick raises
    it, nothing is removed, and the FINISHED run stays in the registry. *)
Lemma process_runs_handle_ValueError :
  process_runs idle_transition (λ _ _, Raise ValueError) node_e5 ["c-e5"]
  = (Raise ValueError, node_e5, ["c-e5"]).
Proof. reflexivity. Qed.

(** * Further properties of the manager *)

(** ** More about dictionaries *)

Section more_dict_facts.
Context {V : Type}.
Implicit Types (d : dict V) (k : string) (v : V).

Lemma dict_get_Some_elem d k v : dict_get d k = Some v → (k, v) ∈ d.
Proof.
  induction d as [|[k' v'] d IH]; simpl; [done|].
  destruct (decide (k' = k)) as [->|Hne].
  - intros [= ->]. left.
  - intros Hg. right. by apply IH.
Qed.

Lemma dict_contains_true d k : dict_contains d k = true ↔ k ∈ dict_keys d.
Proof.
  unfold dict_contains. destruct (dict_get d k) as [v|] eqn:Hget.
  - split; [intros _|done]. apply dict_get_Some_elem in Hget.
    unfold dict_keys. apply list_elem_of_fmap. by exists (k, v).
  - split; [done|]. intros Hin. by apply dict_get_None in Hget.
Qed.

Lemma dict_set_present d k v :
  k ∈ dict_keys d → dict_keys (dict_set d k v) = dict_keys d.
Proof.
  intros Hin. apply dict_keys_set_present.
  destruct (dict_get d k) eqn:Hget; [done|]. by apply dict_get_None in Hget.
Qed.

Lemma dict_keys_set_absent d k v :
  k ∉ dict_keys d → dict_keys (dict_set d k v) = dict_keys d ++ [k].
Proof.
  intros Hout. rewrite dict_set_absent by by apply dict_get_None.
  unfold dict_keys. by rewrite fmap_app.
Qed.

(** Writing a key keeps the dictionary well formed. *)
Lemma dict_set_wf d k v : dict_wf d → dict_wf (dict_set d k v).
Proof.
  unfold dict_wf. intros Hwf. destruct (decide (k ∈ dict_keys d)) as [Hin|Hout].
  - by rewrite dict_set_present.
  - rewrite dict_keys_set_absent by done. apply NoDup_app.
    split; [done|]. split; [|apply NoDup_singleton].
    intros x Hx Hk. apply list_elem_of_singleton in Hk. by subst.
Qed.

(** What a well-formed dictionary holds after a write. *)
Lemma dict_set_elem d k v k' v' :
  dict_wf d → (k', v') ∈ dict_set d k v →
  (k' = k ∧ v' = v) ∨ ((k', v') ∈ d ∧ k' ≠ k).
Proof.
  unfold dict_wf, dict_keys. induction d as [|[k0 v0] d IH]; simpl.
  - intros _ Hin. apply list_elem_of_singleton in Hin. left. by injection Hin.
  - intros Hnd. apply NoDup_cons in Hnd as [Hk0 Hnd].
    destruct (decide (k0 = k)) as [->|Hne]; intros Hin.
    + apply elem_of_cons in Hin as [Heq|Hin]; [left; by injection Heq|].
      right. split; [by right|]. intros ->. apply Hk0.
      apply list_elem_of_fmap. by exists (k, v').
    + apply elem_of_cons in Hin as [Heq|Hin].
      * injection Heq as -> ->. right. split; [left|done].
      * destruct (IH Hnd Hin) as [?|[? ?]]; [by left|].
        right. split; [by right|done].
Qed.

Lemma dict_set_set d k v1 v2 :
  dict_set (dict_set d k v1) k v2 = dict_set d k v2.
Proof.
  induction d as [|[k' v'] d IH]; simpl.
  - by rewrite decide_True.
  - destruct (decide (k' = k)) as [->|Hne]; simpl.
    + by rewrite decide_True.
    + rewrite decide_False by done. by rewrite IH.
Qed.

Lemma dict_set_comm d k1 v1 k2 v2 :
  k1 ≠ k2 → k1 ∈ dict_keys d →
  dict_set (dict_set d k1 v1) k2 v2 = dict_set (dict_set d k2 v2) k1 v1.
Proof.
  intros Hne. unfold dict_keys. induction d as [|[k' v'] d IH]; simpl.
  - intros Hin. by apply elem_of_nil in Hin.
  - intros Hin. apply elem_of_cons in Hin.
    destruct (decide (k' = k1)) as [E1|Hne1];
      destruct (decide (k' = k2)) as [E2|Hne2]; simplify_eq; simpl;
      rewrite ?decide_True by done; rewrite ?decide_False by done;
      try done.
    + by destruct (decide (k1 = k1)).
    + destruct Hin as [?|Hin]; [congruence|]. by rewrite IH.
Qed.
End more_dict_facts.

(** ** [kill] and [mark_finalized] on registered runs *)

(** X1: for a run registered under the UUID of its bundle, [kill] returns
    without raising and only flags the run: [is_killed] becomes true and
    [kill_message] "Kill requested", while the stage and every other field
    of the run, every other run, the order of the registry and the rest of
    the manager stay as they were. *)
Theorem kill_registered self run_uuid run_state :
  dict_get (_runs self) run_uuid = Some run_state →
  uuid (bundle run_state) = run_uuid →
  (kill self run_uuid).1 = Ok ()
  ∧ ∃ run_state',
      dict_get (_runs (kill self run_uuid).2) run_uuid = Some run_state'
      ∧ is_killed run_state' = true
      ∧ kill_message run_state' = Some "Kill requested"
      ∧ but_killed run_state' = but_killed run_state
      ∧ (∀ other, other ≠ run_uuid →
           dict_get (_runs (kill self run_uuid).2) other
           = dict_get (_runs self) other)
      ∧ dict_keys (_runs (kill self run_uuid).2) = dict_keys (_runs self)
      ∧ but_runs (kill self run_uuid).2 = but_runs self.
Proof.
  intros Hget Hkey. unfold kill, getitem. rewrite Hget. simpl. rewrite Hkey.
  split; [done|]. exists (replace_killed "Kill requested" run_state).
  split; [apply dict_get_set_eq|]. split; [done|]. split; [done|].
  split; [done|].
  split; [intros other Hne; by apply dict_get_set_ne|].
  split; [|done]. apply dict_keys_set_present. by rewrite Hget.
Qed.

Lemma kill_registered_witness :
  (dict_get (_runs node_ab) "0xa1" = Some run_a1
   ∧ uuid (bundle run_a1) = "0xa1")
  ∧ (kill node_ab "0xa1").1 = Ok ()
  ∧ ∃ run_state',
      dict_get (_runs (kill node_ab "0xa1").2) "0xa1" = Some run_state'
      ∧ is_killed run_state' = true
      ∧ stage run_state' = RUNNING.
Proof.
  split; [split; reflexivity|].
  destruct (kill_registered node_ab "0xa1" run_a1 eq_refl eq_refl)
    as (Hok & run_state' & Hget & Hkilled & _ & Hsame & _).
  split; [exact Hok|]. exists run_state'.
  split; [exact Hget|]. split; [exact Hkilled|].
  by injection Hsame.
Defined.

(** X2: a second [kill], or a second [mark_finalized], with the same UUID
    has the outcome of the first and leaves the manager as the first left
    it, whether the UUID is registered or not. *)
Theorem kill_mark_finalized_idempotent self run_uuid :
  kill (kill self run_uuid).2 run_uuid = kill self run_uuid
  ∧ mark_finalized (mark_finalized self run_uuid).2 run_uuid
    = mark_finalized self run_uuid.
Proof.
  split.
  - unfold kill, getitem.
    destruct (dict_get (_runs self) run_uuid) as [r|] eqn:Hget; simpl;
      [|by rewrite Hget].
    destruct (decide (uuid (bundle r) = run_uuid)) as [Hkey|Hkey].
    + rewrite Hkey, dict_get_set_eq. simpl. rewrite Hkey.
      by rewrite dict_set_set.
    + rewrite dict_get_set_ne, Hget by done. simpl.
      by rewrite dict_set_set.
  - unfold mark_finalized, dict_contains, getitem.
    destruct (dict_get (_runs self) run_uuid) as [r|] eqn:Hget; simpl;
      [|by rewrite Hget].
    rewrite dict_get_set_eq. simpl. by rewrite dict_set_set.
Qed.

(** X3: on a registry that holds each run once under the UUID of its
    bundle, [kill] and [mark_finalized] can be called in either order, on
    the same run or on different ones: the manager ends up the same, and
    [kill] raises in one order exactly if it does in the other. *)
Theorem kill_mark_finalized_commute self killed_uuid finalized_uuid :
  registry_ok (_runs self) →
  (mark_finalized (kill self killed_uuid).2 finalized_uuid).2
  = (kill (mark_finalized self finalized_uuid).2 killed_uuid).2
  ∧ (kill (mark_finalized self finalized_uuid).2 killed_uuid).1
    = (kill self killed_uuid).1.
Proof.
  intros [Hwf Hkeyed]. unfold kill, mark_finalized, dict_contains, getitem.
  destruct (dict_get (_runs self) killed_uuid) as [r|] eqn:Hk; simpl.
  - assert (uuid (bundle r) = killed_uuid) as Hkey.
    { apply dict_get_Some_elem in Hk.
      by apply (proj1 (Forall_forall _ _) Hkeyed (killed_uuid, r)). }
    rewrite Hkey.
    destruct (decide (finalized_uuid = killed_uuid)) as [->|Hne].
    + rewrite dict_get_set_eq, Hk. simpl. rewrite dict_get_set_eq. simpl.
      rewrite Hkey. by rewrite !dict_set_set.
    + rewrite dict_get_set_ne by done.
      destruct (dict_get (_runs self) finalized_uuid) as [r2|] eqn:Hf; simpl.
      * rewrite dict_get_set_ne, Hk by done. simpl. rewrite Hkey.
        split; [|done]. unfold with_runs. simpl. f_equal.
        apply dict_set_comm; [congruence|].
        apply dict_contains_true. unfold dict_contains. by rewrite Hk.
      * rewrite Hk. simpl. by rewrite Hkey.
  - destruct (dict_get (_runs self) finalized_uuid) as [r2|] eqn:Hf; simpl.
    + destruct (decide (finalized_uuid = killed_uuid)) as [->|Hne];
        [congruence|].
      by rewrite dict_get_set_ne, Hk.
    + by rewrite Hk.
Qed.

Lemma kill_mark_finalized_commute_witness :
  registry_ok (_runs node_ab)
  ∧ (mark_finalized (kill node_ab "0xa1").2 "0xb2").2
    = (kill (mark_finalized node_ab "0xb2").2 "0xa1").2.
Proof.
  assert (registry_ok (_runs node_ab)) as Hok.
  { apply (bool_decide_unpack _). vm_compute. exact I. }
  split; [exact Hok|].
  apply (kill_mark_finalized_commute node_ab "0xa1" "0xb2" Hok).
Defined.

(** ** [create_run], [has_run] and the registry invariant *)

Lemma registry_ok_set (runs : dict LocalRunState) k run_state :
  registry_ok runs → uuid (bundle run_state) = k →
  registry_ok (dict_set runs k run_state).
Proof.
  intros [Hwf Hkeyed] Hkey. split; [by apply dict_set_wf|].
  apply Forall_forall. intros [k' v'] Hin. simpl.
  apply dict_set_elem in Hin as [[-> ->]|[Hin _]]; [done| |done].
  by apply (proj1 (Forall_forall _ _) Hkeyed (k', v')).
Qed.

Section create_run_more.
Variable realpath : string → string.

(** X4: unless the manager is stopping, after [create_run] the bundle's
    UUID is registered ([has_run] is true).  A UUID that was registered
    keeps its place and the registry its UUIDs and order; a new UUID goes
    to the end.  Every other run is as before, and the state registered is
    the same fresh one whatever was registered under the UUID before: a
    second [create_run] for a UUID resets its run. *)
Theorem create_run_registers self bundle resources now :
  _stop self = false →
  has_run (create_run realpath self bundle resources now).2 (uuid bundle) = true
  ∧ (has_run self (uuid bundle) = true →
     dict_keys (_runs (create_run realpath self bundle resources now).2)
     = dict_keys (_runs self))
  ∧ (has_run self (uuid bundle) = false →
     dict_keys (_runs (create_run realpath self bundle resources now).2)
     = dict_keys (_runs self) ++ [uuid bundle])
  ∧ (∀ other, other ≠ uuid bundle →
       dict_get (_runs (create_run realpath self bundle resources now).2) other
       = dict_get (_runs self) other)
  ∧ dict_get (_runs (create_run realpath self bundle resources now).2)
      (uuid bundle)
    = dict_get
        (_runs (create_run realpath (with_runs [] self) bundle resources now).2)
        (uuid bundle).
Proof.
  intros Hstop. unfold create_run, has_run. simpl. rewrite Hstop. simpl.
  split; [unfold dict_contains; by rewrite dict_get_set_eq|].
  split; [intros Hin; by apply dict_set_present, dict_contains_true|].
  split.
  { intros Hout. apply dict_keys_set_absent. intros Hin.
    apply dict_contains_true in Hin. congruence. }
  split; [intros other Hne; by apply dict_get_set_ne|].
  rewrite dict_get_set_eq. by rewrite decide_True.
Qed.

(** X5: a registry in which every run is held once, under the UUID of its
    bundle, is still so after [create_run], after [kill] and after
    [mark_finalized], whatever their arguments. *)
Theorem registry_ok_kept self bundle resources now run_uuid :
  registry_ok (_runs self) →
  registry_ok (_runs (create_run realpath self bundle resources now).2)
  ∧ registry_ok (_runs (kill self run_uuid).2)
  ∧ registry_ok (_runs (mark_finalized self run_uuid).2).
Proof.
  intros Hok. split; [|split].
  - unfold create_run. destruct (_stop self); [done|]. simpl.
    by apply registry_ok_set.
  - unfold kill, getitem.
    destruct (dict_get (_runs self) run_uuid) as [r|] eqn:Hget; [|done].
    simpl. by apply registry_ok_set.
  - unfold mark_finalized, dict_contains, getitem.
    destruct (dict_get (_runs self) run_uuid) as [r|] eqn:Hget; [|done].
    simpl. apply registry_ok_set; [done|]. simpl.
    destruct Hok as [_ Hkeyed]. apply dict_get_Some_elem in Hget.
    by apply (proj1 (Forall_forall _ _) Hkeyed (run_uuid, r)).
Qed.
End create_run_more.

Lemma create_run_registers_witness :
  _stop node_ab = false
  ∧ has_run node_ab "0xa1" = true
  ∧ has_run
      (create_run sample_realpath node_ab (sample_bundle "0xa1")
         sample_resources 2000).2 "0xa1" = true
  ∧ dict_keys
      (_runs (create_run sample_realpath node_ab (sample_bundle "0xa1")
                sample_resources 2000).2) = ["0xa1"; "0xb2"]
  ∧ dict_keys
      (_runs (create_run sample_realpath node_ab (sample_bundle "0xe5")
                sample_resources 2000).2) = ["0xa1"; "0xb2"; "0xe5"].
Proof.
  split; [reflexivity|]. split; [reflexivity|].
  destruct (create_run_registers sample_realpath node_ab (sample_bundle "0xa1")
              sample_resources 2000 eq_refl) as (Hhas & Hold & _).
  destruct (create_run_registers sample_realpath node_ab (sample_bundle "0xe5")
              sample_resources 2000 eq_refl) as (_ & _ & Hnew & _).
  split; [exact Hhas|].
  split; [exact (Hold eq_refl)|exact (Hnew eq_refl)].
Defined.

Lemma registry_ok_kept_witness :
  registry_ok (_runs node_ab)
  ∧ registry_ok
      (_runs (create_run sample_realpath node_ab (sample_bundle "0xe5")
                sample_resources 2000).2)
  ∧ registry_ok (_runs (kill node_ab "0xa1").2)
  ∧ registry_ok (_runs (mark_finalized node_ab "0xb2").2).
Proof.
  assert (registry_ok (_runs node_ab)) as Hok.
  { apply (bool_decide_unpack _). vm_compute. exact I. }
  split; [exact Hok|].
  destruct (registry_ok_kept sample_realpath node_ab (sample_bundle "0xe5")
              sample_resources 2000 "0xa1" Hok) as (Hc & Hk & _).
  destruct (registry_ok_kept sample_realpath node_ab (sample_bundle "0xe5")
              sample_resources 2000 "0xb2" Hok) as (_ & _ & Hm).
  split; [exact Hc|]. split; [exact Hk|exact Hm].
Defined.

(** ** [kill_all] with no other thread at work *)

Lemma dict_filter_idemp {V} (p : V → bool) (d : dict V) :
  dict_filter p (dict_filter p d) = dict_filter p d.
Proof. unfold dict_filter. by apply list_filter_filter_r. Qed.

Lemma dict_filter_fmap {V} (p : V → bool) (f : V → V) (d : dict V) :
  (∀ v, p (f v) = p v) →
  dict_filter p (prod_map id f <$> d) = prod_map id f <$> dict_filter p d.
Proof.
  intros Hp. unfold dict_filter, dict in *.
  induction d as [|[k v] d IH]; [done|].
  rewrite fmap_cons, !filter_cons. simpl. rewrite Hp.
  destruct (decide (p v = true)); simpl; by rewrite IH.
Qed.

Lemma kill_wait_alone attempt attempts self slept :
  kill_wait nobody_else (attempt :: attempts) self slept
  = (with_runs (dict_filter not_finished (_runs self)) self,
     (slept + S (length attempts))%nat).
Proof.
  revert attempt self slept.
  induction attempts as [|a attempts IH]; intros attempt self slept.
  - reflexivity.
  - change (kill_wait nobody_else (attempt :: a :: attempts) self slept)
      with (kill_wait nobody_else (a :: attempts)
              (with_runs (dict_filter not_finished (_runs self)) self)
              (slept + 1)).
    rewrite IH. simpl. rewrite dict_filter_idemp. f_equal. lia.
Qed.

(** X6: with no other thread at work, [kill_all] returns normally after
    [KILL_TIMEOUT] sleeps and leaves in the registry exactly the runs that
    were not FINISHED, in their order, each with [is_killed] and the kill
    message "Worker stopped" and otherwise as it was. *)
Theorem kill_all_alone self :
  dict_wf (_runs self) →
  kill_all nobody_else self
  = (Ok (),
     with_runs
       (prod_map id (replace_killed "Worker stopped")
          <$> dict_filter not_finished (_runs self)) self,
     KILL_TIMEOUT).
Proof.
  intros Hwf. unfold kill_all.
  rewrite (kill_each_in_place [] (_runs self)) by done.
  change ([] ++ ?l) with l.
  change (seq 0 KILL_TIMEOUT) with (0%nat :: seq 1 99).
  rewrite kill_wait_alone. simpl _runs. rewrite length_seq.
  by rewrite dict_filter_fmap.
Qed.

Lemma kill_all_alone_witness :
  dict_wf (_runs node_abcd)
  ∧ dict_keys (_runs (kill_all nobody_else node_abcd).1.2)
    = ["0xa1"; "0xb2"; "0xc3"]
  ∧ (kill_all nobody_else node_abcd).2 = 100%nat.
Proof.
  assert (dict_wf (_runs node_abcd)) as Hwf.
  { apply (bool_decide_unpack _). vm_compute. exact I. }
  split; [exact Hwf|].
  rewrite (kill_all_alone node_abcd Hwf). split; reflexivity.
Defined.

(** ** More about the tick *)

Lemma container_remove_outcome docker c :
  (container_remove docker c).2 `sublist_of` docker
  ∧ ((container_remove docker c).1 = Ok ()
     ∨ (container_remove docker c).1 = Raise NotFound).
Proof.
  destruct c as [id]. simpl. destruct (bool_decide (id ∈ docker)); simpl.
  - split; [apply sublist_filter|by left].
  - split; [done|by right].
Qed.

Section more_process_runs.
Variable transition :
  LocalRunManager → Docker → LocalRunState → LocalRunState * Docker.
Variable get_by_handle : Docker → Container → result Container.

(** The sweep only takes containers away, and what it raises was raised
    by [containers.get] on a live handle and is not what the handler
    passes over. *)
Lemma remove_each_outcome ids docker :
  (remove_each get_by_handle ids docker).2 `sublist_of` docker
  ∧ match (remove_each get_by_handle ids docker).1 with
    | Ok _ => True
    | Raise e =>
        not_found_or_null e = false ∧ ∃ d c, get_by_handle d c = Raise e
    end.
Proof.
  revert docker. induction ids as [|[h|] ids IH]; intros docker.
  - by split.
  - cbn [remove_each containers_get_object].
    destruct (get_by_handle docker h) as [c|e] eqn:Hget.
    + destruct (container_remove_outcome docker c) as [Hsub Hres].
      destruct (container_remove docker c) as [r docker1]. simpl in *.
      destruct (IH docker1) as [Hsub1 Hres1].
      destruct Hres as [->| ->]; simpl;
        (split; [by etrans|done]).
    + destruct (not_found_or_null e) eqn:Hcaught.
      * apply IH.
      * simpl. split; [done|]. split; [done|]. by exists docker, h.
  - cbn [remove_each containers_get_object containers_get].
    simpl. apply IH.
Qed.

(** The reference only reads the attributes of the manager other than
    the registry. *)
Lemma transitioned_from_with_runs runs pre todo self docker :
  transitioned_from transition pre todo (with_runs runs self) docker
  = transitioned_from transition pre todo self docker.
Proof.
  revert pre docker. induction todo as [|[k v] todo IH]; intros pre docker.
  - done.
  - cbn [transitioned_from].
    change (with_runs (pre ++ (k, v) :: todo) (with_runs runs self))
      with (with_runs (pre ++ (k, v) :: todo) self).
    destruct (transition _ docker v) as [v' docker1]. apply IH.
Qed.

(** It keeps the UUIDs and their order. *)
Lemma transitioned_from_shape pre todo self docker :
  ∃ todo', (transitioned_from transition pre todo self docker).1 = pre ++ todo'
           ∧ dict_keys todo' = dict_keys todo.
Proof.
  revert pre docker. induction todo as [|[k v] todo IH]; intros pre docker.
  - exists []. by rewrite app_nil_r.
  - cbn [transitioned_from].
    destruct (transition _ docker v) as [v' docker1].
    destruct (IH (pre ++ [(k, v')]) docker1) as (todo' & Heq & Hkeys).
    exists ((k, v') :: todo'). rewrite Heq, <- app_assoc. split; [done|].
    unfold dict_keys in *. simpl. f_equal. exact Hkeys.
Qed.

(** On a registry that holds each UUID once, the loop over the keys
    never raises and leaves what the reference says. *)
Lemma transition_each_transitioned pre todo self docker :
  NoDup (dict_keys pre ++ dict_keys todo) →
  _runs self = pre ++ todo →
  transition_each transition (dict_keys todo) self docker
  = (Ok (),
     with_runs (transitioned_from transition pre todo self docker).1 self,
     (transitioned_from transition pre todo self docker).2).
Proof.
  revert pre self docker.
  induction todo as [|[k v] todo IH]; intros pre self docker Hnd Hruns.
  - simpl. rewrite app_nil_r in Hruns. by rewrite <- Hruns, with_runs_same.
  - assert (k ∉ dict_keys pre) as Hk.
    { apply NoDup_app in Hnd as (_ & Hdisj & _).
      intros Hin. apply (Hdisj _ Hin). left. }
    cbn [dict_keys fmap list_fmap fst transition_each transitioned_from].
    assert (with_runs (pre ++ (k, v) :: todo) self = self) as ->
      by (rewrite <- Hruns; apply with_runs_same).
    unfold getitem. rewrite Hruns, dict_get_middle by done.
    destruct (transition self docker v) as [v' docker1] eqn:Htr.
    rewrite dict_set_middle by done.
    pose proof (IH (pre ++ [(k, v')])
                  (with_runs (pre ++ (k, v') :: todo) self) docker1) as Heach.
    unfold dict_keys in Heach. rewrite Heach.
    + by rewrite transitioned_from_with_runs.
    + unfold dict_keys in *. by rewrite fmap_app, <- app_assoc.
    + simpl. by rewrite <- app_assoc.
Qed.

(** Under each UUID is what [transition] returned for the run that was
    there, called with a manager that has the same attributes and holds
    that run. *)
Lemma transitioned_from_lookup pre todo self docker k v :
  NoDup (dict_keys pre ++ dict_keys todo) →
  (k, v) ∈ todo →
  ∃ self_i docker_i,
    but_runs self_i = but_runs self
    ∧ dict_get (_runs self_i) k = Some v
    ∧ dict_get (transitioned_from transition pre todo self docker).1 k
      = Some (transition self_i docker_i v).1.
Proof.
  revert pre docker.
  induction todo as [|[k0 v0] todo IH]; intros pre docker Hnd Hin.
  - by apply elem_of_nil in Hin.
  - assert (k0 ∉ dict_keys pre) as Hk0.
    { apply NoDup_app in Hnd as (_ & Hdisj & _).
      intros Hin0. apply (Hdisj _ Hin0). left. }
    cbn [transitioned_from].
    destruct (transition (with_runs (pre ++ (k0, v0) :: todo) self) docker v0)
      as [v0' docker1] eqn:Htr.
    assert (NoDup (dict_keys (pre ++ [(k0, v0')]) ++ dict_keys todo)) as Hnd'.
    { unfold dict_keys in *. by rewrite fmap_app, <- app_assoc. }
    apply elem_of_cons in Hin as [[= -> ->]|Hin].
    + exists (with_runs (pre ++ (k0, v0) :: todo) self), docker.
      split; [done|]. split; [simpl; by rewrite dict_get_middle|].
      destruct (transitioned_from_shape (pre ++ [(k0, v0')]) todo self docker1)
        as (todo' & -> & _).
      rewrite <- app_assoc. simpl. rewrite dict_get_middle by done.
      by rewrite Htr.
    + by apply IH.
Qed.

(** X7: with a state machine that does not raise, a tick on a registry
    that holds each UUID once can only raise in its sweep.  The error is
    then neither [NotFound] nor [NullResource], which the handler passes
    over; every run has been transitioned, and the registry holds all of
    them under the same UUIDs, the FINISHED ones included, as the final
    filter has not run; the rest of the manager is untouched; and the
    daemon holds no container that it did not hold after the
    transitions. *)
Theorem process_runs_raising_tick self docker e self' docker' :
  dict_wf (_runs self) →
  process_runs transition get_by_handle self docker = (Raise e, self', docker') →
  let after := transitioned transition self docker in
  not_found_or_null e = false
  ∧ self' = with_runs after.1 self
  ∧ dict_keys (_runs self') = dict_keys (_runs self)
  ∧ docker' `sublist_of` after.2.
Proof.
  intros Hwf. cbv zeta. unfold process_runs, transitioned.
  rewrite (transition_each_transitioned [] (_runs self) self docker)
    by done.
  destruct (transitioned_from_shape [] (_runs self) self docker)
    as (runs1 & Hshape & Hkeys).
  destruct (transitioned_from transition [] (_runs self) self docker)
    as [after docker1]. simpl in Hshape. subst after.
  pose proof (remove_each_outcome
                (finished_container_ids (with_runs runs1 self)) docker1)
    as [Hsub Hres].
  destruct (remove_each _ _ _) as [[[]|e'] docker2]; [done|].
  intros [= <- <- <-]. simpl in *. by destruct Hres as [Hcaught _].
Qed.

(** X8: when a tick on a registry that holds each UUID once returns, the
    registry is the transitioned one without the runs that are then
    FINISHED: under each remaining UUID, in the old order, what
    [transition] returned for the run that was there; no run is FINISHED;
    the rest of the manager is untouched; and the daemon holds no
    container that it did not hold after the transitions. *)
Theorem process_runs_returns self docker self' docker' :
  dict_wf (_runs self) →
  process_runs transition get_by_handle self docker = (Ok (), self', docker') →
  let after := transitioned transition self docker in
  self' = with_runs (dict_filter not_finished after.1) self
  ∧ dict_keys after.1 = dict_keys (_runs self)
  ∧ (∀ bundle_uuid run_state, (bundle_uuid, run_state) ∈ _runs self →
       ∃ self_i docker_i,
         but_runs self_i = but_runs self
         ∧ dict_get (_runs self_i) bundle_uuid = Some run_state
         ∧ dict_get after.1 bundle_uuid
           = Some (transition self_i docker_i run_state).1)
  ∧ dict_keys (_runs self') `sublist_of` dict_keys (_runs self)
  ∧ (∀ run_state, run_state ∈ dict_values (_runs self') →
       stage run_state ≠ FINISHED)
  ∧ docker' `sublist_of` after.2.
Proof.
  intros Hwf. cbv zeta. unfold process_runs, transitioned.
  rewrite (transition_each_transitioned [] (_runs self) self docker)
    by done.
  pose proof (λ k v, transitioned_from_lookup [] (_runs self) self docker k v
                       Hwf) as Hlookup.
  destruct (transitioned_from_shape [] (_runs self) self docker)
    as (runs1 & Hshape & Hkeys).
  destruct (transitioned_from transition [] (_runs self) self docker)
    as [after docker1]. simpl in Hshape, Hlookup. subst after.
  pose proof (remove_each_outcome
                (finished_container_ids (with_runs runs1 self)) docker1)
    as [Hsub _].
  destruct (remove_each _ _ _) as [[[]|e] docker2]; [|done].
  intros [= <- <-]. simpl.
  split; [done|]. split; [done|]. split; [exact Hlookup|].
  split; [|split; [|done]].
  - rewrite <- Hkeys. unfold dict_keys, dict_filter.
    apply fmap_sublist, sublist_filter.
  - intros run_state Hin.
    apply dict_filter_values in Hin as [_ Hnf]. unfold not_finished in Hnf.
    by apply negb_true_iff, bool_decide_eq_false in Hnf.
Qed.
End more_process_runs.

Lemma keyed_transfer (todo todo' : dict LocalRunState) :
  dict_keys todo' = dict_keys todo →
  Forall2 (λ old new, bundle new.2 = bundle old.2) todo todo' →
  Forall (λ kv, uuid (bundle kv.2) = kv.1) todo →
  Forall (λ kv, uuid (bundle kv.2) = kv.1) todo'.
Proof.
  unfold dict_keys. intros Hkeys Hall. revert Hkeys.
  induction Hall as [|[k v] [k' v'] todo todo' Hb Hall IH]; [done|].
  simpl. intros [= -> Hkeys] Hkeyed.
  apply Forall_cons in Hkeyed as [Hk Hkeyed]. simpl in *.
  constructor; [simpl; congruence|by apply IH].
Qed.

Lemma registry_ok_filter (p : LocalRunState → bool) runs :
  registry_ok runs → registry_ok (dict_filter p runs).
Proof.
  intros [Hwf Hkeyed]. split.
  - unfold dict_wf, dict_keys, dict_filter in *.
    eapply sublist_NoDup; [exact Hwf|]. apply fmap_sublist, sublist_filter.
  - apply Forall_forall. intros kv Hin. unfold dict_filter in Hin.
    apply list_elem_of_filter in Hin as [_ Hin].
    by apply (proj1 (Forall_forall _ _) Hkeyed).
Qed.

Section tick_invariant.
Variable transition :
  LocalRunManager → Docker → LocalRunState → LocalRunState * Docker.
Variable get_by_handle : Docker → Container → result Container.
Hypothesis transition_keeps_bundle :
  ∀ self docker run_state,
    bundle (transition self docker run_state).1 = bundle run_state.

(** X9: if the state machine never changes the bundle of a run, a tick
    keeps the registry invariant: after it, returning or raising, every
    run is still held once, under the UUID of its bundle. *)
Theorem process_runs_keeps_registry_ok self docker :
  registry_ok (_runs self) →
  registry_ok (_runs (process_runs transition get_by_handle self docker).1.2).
Proof.
  intros [Hwf Hkeyed]. unfold process_runs.
  destruct (transition_each_in_place transition [] (_runs self) self docker)
    as (runs1 & docker1 & Heach & Hkeys & Hall); [done|done|].
  rewrite Heach. simpl app.
  assert (registry_ok runs1) as Hok1.
  { split; [unfold dict_wf; by rewrite Hkeys|].
    apply (keyed_transfer (_runs self)); [done| |done].
    eapply Forall2_impl; [exact Hall|].
    intros old new (self_i & docker_i & _ & _ & Hnew). simpl.
    etrans; [exact (f_equal bundle Hnew)|apply transition_keeps_bundle]. }
  destruct (remove_each _ _ _) as [[[]|e] docker2]; simpl; [|done].
  by apply registry_ok_filter.
Qed.
End tick_invariant.

Lemma process_runs_raising_tick_witness :
  (dict_wf (_runs node_ad)
   ∧ process_runs moving_transition (λ _ _, Raise ValueError) node_ad []
     = (Raise ValueError,
        sample_node [("0xa1", with_stage FINALIZING run_a1); ("0xd4", run_d4)],
        []))
  ∧ not_found_or_null ValueError = false
  ∧ sample_node [("0xa1", with_stage FINALIZING run_a1); ("0xd4", run_d4)]
    = with_runs (transitioned moving_transition node_ad []).1 node_ad
  ∧ stage run_d4 = FINISHED.
Proof.
  assert (dict_wf (_runs node_ad)) as Hwf.
  { apply (bool_decide_unpack _). vm_compute. exact I. }
  split; [split; [exact Hwf|reflexivity]|].
  destruct (process_runs_raising_tick moving_transition
              (λ _ _, Raise ValueError) node_ad [] ValueError
              (sample_node
                 [("0xa1", with_stage FINALIZING run_a1); ("0xd4", run_d4)])
              [] Hwf eq_refl)
    as (Hcaught & Hself & _).
  split; [exact Hcaught|]. split; [exact Hself|reflexivity].
Defined.

Lemma process_runs_returns_witness :
  (dict_wf (_runs node_abcd)
   ∧ process_runs moving_transition (λ _ c, Ok c) node_abcd ["c-c3"]
     = (Ok (),
        sample_node [("0xa1", with_stage FINALIZING run_a1); ("0xb2", run_b2)],
        ["c-c3"]))
  ∧ sample_node [("0xa1", with_stage FINALIZING run_a1); ("0xb2", run_b2)]
    = with_runs
        (dict_filter not_finished
           (transitioned moving_transition node_abcd ["c-c3"]).1)
        node_abcd
  ∧ (transitioned moving_transition node_abcd ["c-c3"]).1
    = [("0xa1", with_stage FINALIZING run_a1); ("0xb2", run_b2);
       ("0xc3", with_stage FINISHED run_c3); ("0xd4", run_d4)].
Proof.
  assert (dict_wf (_runs node_abcd)) as Hwf.
  { apply (bool_decide_unpack _). vm_compute. exact I. }
  split; [split; [exact Hwf|reflexivity]|].
  destruct (process_runs_returns moving_transition (λ _ c, Ok c) node_abcd
              ["c-c3"]
              (sample_node
                 [("0xa1", with_stage FINALIZING run_a1); ("0xb2", run_b2)])
              ["c-c3"] Hwf eq_refl)
    as (Hself & _).
  split; [exact Hself|reflexivity].
Defined.

Lemma process_runs_keeps_registry_ok_witness :
  (∀ self docker run_state,
     bundle (idle_transition self docker run_state).1 = bundle run_state)
  ∧ registry_ok (_runs node_abcd)
  ∧ registry_ok
      (_runs (process_runs idle_transition (λ _ c, Ok c) node_abcd
                ["c-a1"; "c-c3"]).1.2).
Proof.
  assert (registry_ok (_runs node_abcd)) as Hok.
  { apply (bool_decide_unpack _). vm_compute. exact I. }
  split; [reflexivity|]. split; [exact Hok|].
  apply (process_runs_keeps_registry_ok idle_transition (λ _ c, Ok c)
           (λ _ _ _, eq_refl) node_abcd ["c-a1"; "c-c3"] Hok).
Defined.

(** ** More about the allocator *)

Section more_allocator.
Context {sets : PySetImpl}.

Lemma set_of_nil : set_of [] = [].
Proof.
  destruct (set_of []) as [|x l] eqn:Hs; [done|].
  assert (x ∈ set_of []) as Hin by (rewrite Hs; left).
  apply (proj1 (set_of_elem _ _)) in Hin. by apply elem_of_nil in Hin.
Qed.

Lemma take_le_subseteq {A} (l : list A) (n m : nat) :
  (n ≤ m)%nat → take n l ⊆ take m l.
Proof.
  intros Hle. replace (take n l) with (take n (take m l)).
  - apply subseteq_take.
  - rewrite take_take. f_equal. lia.
Qed.

(** X10: a request that the allocator serves is within the node's
    totals: [request_cpus] is at most [cpus] and [request_gpus] at most
    [gpus].  So a request above either total raises on every call, whatever
    the registry holds. *)
Theorem assign_cpu_and_gpu_sets_within_totals self c g :
  is_Ok (assign_cpu_and_gpu_sets self c g).1 → c ≤ cpus self ∧ g ≤ gpus self.
Proof.
  unfold assign_cpu_and_gpu_sets, cpus, gpus.
  destruct (subtract_runs _ _) as [[c1 g1]|e] eqn:Hloop; [|done].
  apply subtract_runs_Ok in Hloop as (Hnc & Hng & Hec & Heg & _).
  specialize (Hnc (set_of_NoDup _)). specialize (Hng (set_of_NoDup _)).
  destruct (len_lt c1 c) eqn:Hlc; [done|].
  destruct (len_lt g1 g) eqn:Hlg; [done|].
  apply len_lt_false in Hlc. apply len_lt_false in Hlg. intros _.
  assert (length c1 ≤ length (_cpuset self))%nat.
  { apply submseteq_length, NoDup_submseteq; [done|].
    intros x Hx. apply Hec in Hx as [Hx _]. by apply set_of_elem. }
  assert (length g1 ≤ length (_gpuset self))%nat.
  { apply submseteq_length, NoDup_submseteq; [done|].
    intros x Hx. apply Heg in Hx as [Hx _]. by apply set_of_elem. }
  lia.
Qed.

(** X11: with every run in RUNNING holding its sets, a request for no
    CPU and no GPU is served on every node and under every load, with two
    empty sets. *)
Theorem assign_cpu_and_gpu_sets_nothing self :
  running_assigned (dict_values (_runs self)) →
  assign_cpu_and_gpu_sets self 0 0 = (Ok ([], []), self).
Proof.
  intros Hass. unfold assign_cpu_and_gpu_sets.
  pose proof (subtract_runs_total (dict_values (_runs self))
                (set_of (_cpuset self), set_of (_gpuset self)) Hass) as Hok.
  destruct (subtract_runs _ _) as [[c1 g1]|e]; [|done].
  assert (len_lt c1 0 = false) as -> by (apply len_lt_false; lia).
  assert (len_lt g1 0 = false) as -> by (apply len_lt_false; lia).
  unfold propose_set, slice_to. simpl. by rewrite set_of_nil.
Qed.

(** X12: if a request is served, so is every smaller one (counts not
    negative) on the same state, and from the same indices: the cpuset and
    gpuset proposed for the smaller request are subsets of those proposed
    for the larger. *)
Theorem assign_cpu_and_gpu_sets_smaller self c g c' g' cs gs :
  (assign_cpu_and_gpu_sets self c g).1 = Ok (cs, gs) →
  0 ≤ c' ≤ c → 0 ≤ g' ≤ g →
  ∃ cs' gs',
    assign_cpu_and_gpu_sets self c' g' = (Ok (cs', gs'), self)
    ∧ cs' ⊆ cs ∧ gs' ⊆ gs.
Proof.
  unfold assign_cpu_and_gpu_sets.
  destruct (subtract_runs _ _) as [[c1 g1]|e] eqn:Hloop; [|done].
  destruct (len_lt c1 c) eqn:Hlc; [done|].
  destruct (len_lt g1 g) eqn:Hlg; [done|].
  apply len_lt_false in Hlc. apply len_lt_false in Hlg.
  simpl. intros [= <- <-] Hc Hg.
  assert (len_lt c1 c' = false) as -> by (apply len_lt_false; lia).
  assert (len_lt g1 g' = false) as -> by (apply len_lt_false; lia).
  eexists _, _. split; [reflexivity|].
  split; intros x Hx; apply propose_set_elem; apply propose_set_elem in Hx;
    rewrite slice_to_nonneg in * by lia;
    (eapply take_le_subseteq; [|exact Hx]); lia.
Qed.
End more_allocator.

Lemma assign_cpu_and_gpu_sets_within_totals_witness :
  is_Ok (assign_cpu_and_gpu_sets (sets := ordered_sets) node_ab 2 1).1
  ∧ 2 ≤ cpus node_ab ∧ 1 ≤ gpus node_ab.
Proof.
  assert (is_Ok (assign_cpu_and_gpu_sets (sets := ordered_sets) node_ab 2 1).1)
    as Hok by exact I.
  split; [exact Hok|].
  exact (assign_cpu_and_gpu_sets_within_totals (sets := ordered_sets)
           node_ab 2 1 Hok).
Defined.

Lemma assign_cpu_and_gpu_sets_nothing_witness :
  running_assigned (dict_values (_runs node_ab))
  ∧ assign_cpu_and_gpu_sets (sets := ordered_sets) node_ab 0 0
    = (Ok ([], []), node_ab).
Proof.
  assert (running_assigned (dict_values (_runs node_ab))) as Hass.
  { intros r Hin Hrun. simpl in Hin.
    apply elem_of_cons in Hin as [->|Hin]; [split; eexists; reflexivity|].
    apply elem_of_cons in Hin as [->|Hin]; [discriminate Hrun|].
    by apply elem_of_nil in Hin. }
  split; [exact Hass|].
  exact (assign_cpu_and_gpu_sets_nothing (sets := ordered_sets) node_ab Hass).
Defined.

Lemma assign_cpu_and_gpu_sets_smaller_witness :
  ((assign_cpu_and_gpu_sets (sets := ordered_sets) node_ab 2 1).1
   = Ok (["2"; "3"], ["1"])
   ∧ 0 ≤ 1 ≤ 2 ∧ 0 ≤ 0 ≤ 1)
  ∧ ∃ cs' gs',
      assign_cpu_and_gpu_sets (sets := ordered_sets) node_ab 1 0
      = (Ok (cs', gs'), node_ab)
      ∧ cs' ⊆ ["2"; "3"] ∧ gs' ⊆ ["1"].
Proof.
  split; [split; [reflexivity|lia]|].
  apply (assign_cpu_and_gpu_sets_smaller (sets := ordered_sets) node_ab 2 1 1 0
           ["2"; "3"] ["1"]); [reflexivity|lia|lia].
Defined.

(** ** More about [load_state] *)

Section more_persistence.
Context {BundleDict ResourcesDict : Type}.
Variable bundle_from_dict : BundleDict → BundleInfo.
Variable resources_from_dict : ResourcesDict → RunResources.

(** The loop body handles the one error the runtime answers with. *)
Lemma loaded_run_Ok docker (run_state : RunStateOf BundleDict ResourcesDict) :
  is_Ok (loaded_run bundle_from_dict resources_from_dict docker run_state).
Proof.
  unfold loaded_run, truthy, containers_get.
  destruct (container_id run_state) as [cid|]; [|done].
  destruct (bool_decide (cid = "")); [done|]. simpl.
  by destruct (bool_decide (cid ∈ docker)).
Qed.

Lemma load_runs_merges items docker self :
  ∃ self',
    load_runs bundle_from_dict resources_from_dict items docker self
    = (Ok (), self')
    ∧ but_runs self' = but_runs self
    ∧ ∀ k, k ∉ items.*1 → dict_get (_runs self') k = dict_get (_runs self) k.
Proof.
  revert self. induction items as [|[k s] items IH]; intros self.
  - by exists self.
  - cbn [load_runs]. pose proof (loaded_run_Ok docker s) as Hok.
    destruct (loaded_run _ _ docker s) as [r|e]; [|done].
    destruct (IH (with_runs (dict_set (_runs self) k r) self))
      as (self' & Hload & Hbut & Hkeep).
    exists self'. split; [done|]. split; [done|].
    intros k' Hk'. rewrite fmap_cons in Hk'.
    apply not_elem_of_cons in Hk' as [Hne Hk'].
    rewrite Hkeep by done. simpl. by apply dict_get_set_ne.
Qed.

(** X13: [load_state] does not raise when the runtime does not know a
    container ([NotFound] is handled), and it does not clear the registry:
    the rest of the manager and every run whose UUID is not in the snapshot
    stay as they are.  An empty snapshot changes nothing. *)
Theorem load_state_merges self
    (committer : JsonStateCommitter (dict (RunStateOf BundleDict ResourcesDict)))
    docker :
  ∃ self',
    load_state bundle_from_dict resources_from_dict self committer docker
    = (Ok (), self')
    ∧ but_runs self' = but_runs self
    ∧ (∀ k, k ∉ dict_keys (load [] committer) →
         dict_get (_runs self') k = dict_get (_runs self) k)
    ∧ (load [] committer = [] → self' = self).
Proof.
  unfold load_state.
  destruct (load_runs_merges (load [] committer) docker self)
    as (self' & Hload & Hbut & Hkeep).
  exists self'. split; [done|]. split; [done|]. split; [done|].
  intros Hempty. rewrite Hempty in Hload. simpl in Hload. by injection Hload.
Qed.
End more_persistence.

(** ** The lifecycle *)

Section lifecycle_theorems.
Context {Collab Daemon BundleDict ResourcesDict : Type}.
Context {collaborators : Collaborators Collab Daemon}.
Variable bundle_to_dict : BundleInfo → BundleDict.
Variable bundle_from_dict : BundleDict → BundleInfo.
Variable resources_to_dict : RunResources → ResourcesDict.
Variable resources_from_dict : ResourcesDict → RunResources.
Variable realpath : string → string.

Local Abbreviation stopping := (stop bundle_to_dict resources_to_dict).
Local Abbreviation starting := (start bundle_from_dict resources_from_dict).

Lemma stop_self self collab committer nets daemon :
  (stopping self collab committer nets daemon).1.1.1.2 = with_stop true self.
Proof.
  unfold stop. destruct (stop_managers _ collab) as [[[]|e] collab1]; [|done].
  by destruct (remove_networks nets daemon) as [[| |] daemon1].
Qed.

(** X14: whatever the managers and the daemon do while [stop] runs, even
    if one of them raises, after [stop] the stopping flag is set, the
    registry and every run in it are as they were ([stop] kills no run and
    waits for none), and [create_run] leaves the manager unchanged. *)
Theorem stop_refuses_new_runs self collab committer nets daemon bundle
    resources now :
  _stop (stopping self collab committer nets daemon).1.1.1.2 = true
  ∧ _runs (stopping self collab committer nets daemon).1.1.1.2 = _runs self
  ∧ create_run realpath (stopping self collab committer nets daemon).1.1.1.2
      bundle resources now
    = (Ok (), (stopping self collab committer nets daemon).1.1.1.2).
Proof. rewrite stop_self. by repeat split. Qed.

Lemma stop_committer self collab committer nets daemon :
  (stop_managers self collab).1 = Ok () →
  (stopping self collab committer nets daemon).1.2
  = save_state bundle_to_dict resources_to_dict (with_stop true self) committer.
Proof.
  unfold stop.
  change (stop_managers (with_stop true self) collab)
    with (stop_managers self collab).
  destruct (stop_managers self collab) as [[[]|e] collab1]; [|done].
  intros _. by destruct (remove_networks nets daemon) as [[| |] daemon1].
Qed.


(** X16: once the managers have stopped, a network removal that fails
    with [APIError] does not make [stop] raise, but it ends the removals:
    if the general network cannot be removed, or the internal one after it,
    [stop] returns normally with the daemon as the failing call left it,
    the remaining networks not asked for.  What [stop] raises at this
    point is what a removal raised that is not an [APIError]. *)
Theorem stop_network_errors self collab committer nets daemon :
  (stop_managers self collab).1 = Ok () →
  (∀ explanation daemon1,
     network_remove (worker_docker_network nets) daemon
     = (ApiError explanation, daemon1) →
     (stopping self collab committer nets daemon).1.1.1.1 = Ok ()
     ∧ (stopping self collab committer nets daemon).2 = daemon1)
  ∧ (∀ explanation daemon1 daemon2,
       network_remove (worker_docker_network nets) daemon = (ApiOk, daemon1) →
       network_remove (docker_network_internal nets) daemon1
       = (ApiError explanation, daemon2) →
       (stopping self collab committer nets daemon).1.1.1.1 = Ok ()
       ∧ (stopping self collab committer nets daemon).2 = daemon2)
  ∧ (∀ e, (stopping self collab committer nets daemon).1.1.1.1 = Raise e →
       ∃ name daemon1 daemon2,
         network_remove name daemon1 = (ApiOther e, daemon2)).
Proof.
  unfold stop.
  change (stop_managers (with_stop true self) collab)
    with (stop_managers self collab).
  destruct (stop_managers self collab) as [[[]|e'] collab1]; [|done].
  intros _. unfold remove_networks. split; [|split].
  - intros explanation daemon1 ->. done.
  - intros explanation daemon1 daemon2 -> ->. done.
  - intros e.
    destruct (network_remove (worker_docker_network nets) daemon)
      as [[|m|e1] daemon1] eqn:H1; simpl; [|done|].
    + destruct (network_remove (docker_network_internal nets) daemon1)
        as [[|m|e2] daemon2] eqn:H2; simpl; [|done|].
      * destruct (network_remove (docker_network_external nets) daemon2)
          as [[|m|e3] daemon3] eqn:H3; simpl; [done|done|].
        intros [= <-]. by eexists _, _, _.
      * intros [= <-]. by eexists _, _, _.
    + intros [= <-]. by eexists _, _, _.
Qed.

(** X17: let the dictionary conversions of bundles and resources undo
    each other and the registry hold each UUID once.  If the managers stop
    without raising, a manager that starts with an empty registry on the
    commit file [stop] left has, after [start] (whatever the image and
    dependency managers then do), the same UUIDs in the same order, every
    run with its fields as before but for the container's, and no run with
    a [container_id] that the runtime does not know: where the id is set,
    the live handle is the runtime's for that id. *)
Theorem stop_then_start self collab committer nets daemon fresh collab' docker :
  (∀ b, bundle_from_dict (bundle_to_dict b) = b) →
  (∀ r, resources_from_dict (resources_to_dict r) = r) →
  dict_wf (_runs self) →
  (stop_managers self collab).1 = Ok () →
  _runs fresh = [] →
  let started :=
    (starting fresh collab' (stopping self collab committer nets daemon).1.2
       docker).1.2 in
  but_runs started = but_runs fresh
  ∧ dict_keys (_runs started) = dict_keys (_runs self)
  ∧ ∀ run_uuid run_state,
      dict_get (_runs self) run_uuid = Some run_state →
      ∃ run_state',
        dict_get (_runs started) run_uuid = Some run_state'
        ∧ but_container run_state' = but_container run_state
        ∧ (∀ cid, container_id run_state' = Some cid → cid ≠ "" →
             cid ∈ docker ∧ container run_state' = Some (ContainerHandle cid)).
Proof.
  intros Hb Hr Hwf Hok Hfresh. cbv zeta. rewrite stop_committer by done.
  unfold start, load_state, save_state, commit, load. simpl.
  rewrite (load_runs_fresh bundle_to_dict bundle_from_dict resources_to_dict
             resources_from_dict Hb Hr) by by rewrite Hfresh.
  rewrite Hfresh. simpl app.
  assert (∀ X : result unit * LocalRunManager * Collab,
            X.1.2 = with_runs (prod_map id (restored docker) <$> _runs self) fresh
            → but_runs X.1.2 = but_runs fresh
              ∧ dict_keys (_runs X.1.2) = dict_keys (_runs self)
              ∧ ∀ run_uuid run_state,
                  dict_get (_runs self) run_uuid = Some run_state →
                  ∃ run_state',
                    dict_get (_runs X.1.2) run_uuid = Some run_state'
                    ∧ but_container run_state' = but_container run_state
                    ∧ (∀ cid, container_id run_state' = Some cid → cid ≠ "" →
                         cid ∈ docker
                         ∧ container run_state' = Some (ContainerHandle cid)))
    as Hgoal.
  { intros X ->. split; [done|]. split; [apply dict_keys_fmap|].
    intros run_uuid run_state Hget. exists (restored docker run_state).
    split; [simpl; by rewrite dict_get_fmap, Hget|].
    destruct (restored_fields docker run_state) as (Hsame & Hunset & Hset).
    split; [done|]. intros cid Hcid Hne.
    destruct (container_id run_state) as [cid0|] eqn:Hid0.
    - destruct (decide (cid0 = "")) as [->|Hne0].
      + destruct Hunset as [_ Hid]; [done|]. congruence.
      + destruct (Hset cid0 eq_refl Hne0) as [Hin Hout].
        destruct (decide (cid0 ∈ docker)) as [Hd|Hd].
        * destruct (Hin Hd) as [Hc Hi]. by simplify_eq.
        * destruct (Hout Hd) as [_ Hi]. congruence.
    - destruct Hunset as [_ Hid]; [done|]. congruence. }
  apply Hgoal.
  destruct (image_manager_start collab') as [[[]|e] collab1]; [|done].
  destruct (negb (_shared_file_system _)); [|done].
  by destruct (dependency_manager_start collab1).
Qed.
End lifecycle_theorems.


Lemma stop_network_errors_witness :
  ((stop_managers (collaborators := sample_collaborators) node_abcd []).1
   = Ok ()
   ∧ network_remove (Collaborators := sample_collaborators) "net_general"
       ["net_ext"; "net_int"]
     = (ApiError "no such network", ["net_ext"; "net_int"]))
  ∧ (stop (collaborators := sample_collaborators) sample_bundle_to_dict
       sample_resources_to_dict node_abcd [] None sample_networks
       ["net_ext"; "net_int"]).1.1.1.1 = Ok ()
  ∧ (stop (collaborators := sample_collaborators) sample_bundle_to_dict
       sample_resources_to_dict node_abcd [] None sample_networks
       ["net_ext"; "net_int"]).2 = ["net_ext"; "net_int"].
Proof.
  split; [split; reflexivity|].
  destruct (stop_network_errors (collaborators := sample_collaborators)
              sample_bundle_to_dict sample_resources_to_dict node_abcd [] None
              sample_networks ["net_ext"; "net_int"] eq_refl)
    as [Hfirst _].
  exact (Hfirst "no such network" ["net_ext"; "net_int"] eq_refl).
Defined.

Lemma stop_then_start_witness :
  (dict_wf (_runs node_abcd)
   ∧ (stop_managers (collaborators := sample_collaborators) node_abcd []).1
     = Ok ()
   ∧ _runs node_empty = [])
  ∧ dict_keys
      (_runs
         (start (collaborators := sample_collaborators) sample_bundle_from_dict
            sample_resources_from_dict node_empty []
            (stop (collaborators := sample_collaborators) sample_bundle_to_dict
               sample_resources_to_dict node_abcd [] None sample_networks
               ["net_general"; "net_ext"; "net_int"]).1.2
            ["c-a1"]).1.2)
    = ["0xa1"; "0xb2"; "0xc3"; "0xd4"].
Proof.
  assert (dict_wf (_runs node_abcd)) as Hwf.
  { apply (bool_decide_unpack _). vm_compute. exact I. }
  split; [split; [exact Hwf|split; reflexivity]|].
  destruct (stop_then_start (collaborators := sample_collaborators)
              sample_bundle_to_dict sample_bundle_from_dict
              sample_resources_to_dict sample_resources_from_dict
              node_abcd [] None sample_networks
              ["net_general"; "net_ext"; "net_int"] node_empty [] ["c-a1"]
              sample_bundle_round_trip sample_resources_round_trip Hwf
              eq_refl eq_refl)
    as (_ & Hkeys & _).
  exact Hkeys.
Defined.

(** ** [all_runs] *)

Section all_runs_theorems.
Variable WORKER_STATE_TO_SERVER_STATE : LocalRunStage → string.
Variable worker_id : string.

Local Abbreviation report := (all_runs WORKER_STATE_TO_SERVER_STATE worker_id).

(** X18: on a registry that holds each run once under the UUID of its
    bundle, [all_runs] reports every registered UUID exactly once, in
    registry order; each report carries the worker's id, the server state
    the table gives for the stage of the run registered under its UUID,
    and that run's status, exit code and failure message. *)
Theorem all_runs_reports_registry self :
  registry_ok (_runs self) →
  WorkerRun.uuid <$> report self = dict_keys (_runs self)
  ∧ NoDup (WorkerRun.uuid <$> report self)
  ∧ ∀ wr, wr ∈ report self →
      ∃ run_state,
        dict_get (_runs self) (WorkerRun.uuid wr) = Some run_state
        ∧ WorkerRun.remote wr = worker_id
        ∧ WorkerRun.state wr = WORKER_STATE_TO_SERVER_STATE (stage run_state)
        ∧ WorkerRun.run_status wr = run_status run_state
        ∧ WorkerRun.exitcode wr = exitcode run_state
        ∧ WorkerRun.failure_message wr = failure_message run_state.
Proof.
  intros [Hwf Hkeyed].
  assert (WorkerRun.uuid <$> report self = dict_keys (_runs self)) as Hkeys.
  { unfold all_runs, dict_values, dict_keys.
    rewrite <- !list_fmap_compose. apply Forall_fmap_ext_1.
    eapply Forall_impl; [exact Hkeyed|]. by intros [k r]. }
  split; [done|]. split; [by rewrite Hkeys|].
  intros wr Hin. unfold all_runs, dict_values in Hin.
  apply list_elem_of_fmap in Hin as (r & -> & Hin).
  apply list_elem_of_fmap in Hin as ([k r'] & -> & Hin). simpl.
  exists r'. split; [|done].
  pose proof (proj1 (Forall_forall _ _) Hkeyed _ Hin) as Hk. simpl in Hk.
  rewrite Hk. clear Hk Hkeys.
  unfold dict_wf, dict_keys in Hwf.
  induction (_runs self) as [|[k0 v0] d IH]; [by apply elem_of_nil in Hin|].
  apply NoDup_cons in Hwf as [Hk0 Hnd]. simpl.
  apply Forall_cons in Hkeyed as [_ Hkeyed].
  apply elem_of_cons in Hin as [[= -> ->]|Hin]; [by rewrite decide_True|].
  rewrite decide_False; [by apply IH|].
  intros ->. apply Hk0. apply list_elem_of_fmap. by exists (k, r').
Qed.
End all_runs_theorems.

Lemma all_runs_reports_registry_witness :
  registry_ok (_runs node_abcd)
  ∧ WorkerRun.uuid <$> all_runs sample_server_state "worker-1" node_abcd
    = ["0xa1"; "0xb2"; "0xc3"; "0xd4"]
  ∧ WorkerRun.state <$> all_runs sample_server_state "worker-1" node_abcd
    = ["running"; "preparing"; "finalizing"; "ready"].
Proof.
  assert (registry_ok (_runs node_abcd)) as Hok.
  { apply (bool_decide_unpack _). vm_compute. exact I. }
  split; [exact Hok|].
  destruct (all_runs_reports_registry sample_server_state "worker-1" node_abcd
              Hok) as (Hkeys & _).
  split; [exact Hkeys|reflexivity].
Defined.

(** ** [free_disk_bytes] *)

(** A text that is one line is the first line of what it is put before. *)
Lemma split_lines_first line rest :
  PyStr.split_lines line = [line] →
  PyStr.split_lines (line +:+ PyStr.newline +:+ rest)
  = line :: PyStr.split_lines rest.
Proof.
  unfold PyStr.split_lines, PyStr.newline.
  induction line as [|c line IH]; simpl.
  - done.
  - destruct (bool_decide (c = "010"%char)); [done|].
    destruct (PyStr.split_on _ line) as [|w ws] eqn:Hline.
    + intros Heq. injection Heq as Heq. subst line. by simpl in Hline.
    + intros Heq. injection Heq as Hw Hws. subst w ws. by rewrite IH.
Qed.

Lemma pretty_N_char_digit d :
  (d < 10)%N → PyStr.digit_value (pretty_N_char d) = Some (Z.of_N d).
Proof.
  intros Hd.
  assert (d = 0 ∨ d = 1 ∨ d = 2 ∨ d = 3 ∨ d = 4 ∨ d = 5 ∨ d = 6 ∨ d = 7
          ∨ d = 8 ∨ d = 9)%N as Hcases by lia.
  repeat (destruct Hcases as [->|Hcases]; [reflexivity|]). by subst.
Qed.

(** The character of a digit is no white space, no sign and no
    underscore. *)
Lemma pretty_N_char_plain d :
  (d < 10)%N →
  PyStr.isspace (pretty_N_char d) = false
  ∧ pretty_N_char d ≠ "+"%char ∧ pretty_N_char d ≠ "-"%char
  ∧ pretty_N_char d ≠ "_"%char.
Proof.
  intros Hd.
  assert (d = 0 ∨ d = 1 ∨ d = 2 ∨ d = 3 ∨ d = 4 ∨ d = 5 ∨ d = 6 ∨ d = 7
          ∨ d = 8 ∨ d = 9)%N as Hcases by lia.
  repeat (destruct Hcases as [->|Hcases]; [by repeat split|]).
  subst. by repeat split.
Qed.

(** One digit read, when another character that is no underscore
    follows. *)
Lemma digits_step acc c d c' s :
  PyStr.digit_value c = Some d → c' ≠ "_"%char →
  PyStr.digits acc (String c (String c' s))
  = PyStr.digits (10 * acc + d) (String c' s).
Proof.
  intros Hd Hc'. cbn [PyStr.digits]. rewrite Hd.
  by rewrite bool_decide_eq_false_2.
Qed.

(** Reading the digits that [pretty] puts before a text that starts with
    a digit. *)
Lemma digits_pretty_N_go x d s :
  (d < 10)%N →
  ∃ k, 0 ≤ k ∧ ∀ acc,
    PyStr.digits acc (pretty_N_go x (String (pretty_N_char d) s))
    = PyStr.digits (acc * 10 ^ k + Z.of_N x) (String (pretty_N_char d) s).
Proof.
  revert d s. induction (N.lt_wf_0 x) as [x _ IH]; intros d s Hd.
  destruct (decide (x = 0%N)) as [->|Hx].
  - exists 0. split; [done|]. intros acc. rewrite pretty_N_go_0.
    f_equal. lia.
  - assert (0 < x)%N as Hpos by lia.
    assert (x `mod` 10 < 10)%N as Hmod by (apply N.mod_lt; lia).
    rewrite pretty_N_go_step by done.
    destruct (IH (x `div` 10)%N (N.div_lt x 10 Hpos eq_refl) (x `mod` 10)%N
                (String (pretty_N_char d) s) Hmod) as (k & Hk & Hread).
    exists (k + 1). split; [lia|]. intros acc. rewrite Hread.
    rewrite (digits_step _ _ (Z.of_N (x `mod` 10)));
      [|by apply pretty_N_char_digit|by apply pretty_N_char_plain].
    f_equal. rewrite Z.pow_add_r by lia.
    pose proof (N.div_mod x 10) as Hdm.
    assert (Z.of_N x = 10 * Z.of_N (x `div` 10) + Z.of_N (x `mod` 10)) by lia.
    lia.
Qed.

Lemma rstrip_cons c s :
  PyStr.rstrip s = s → s ≠ "" → PyStr.rstrip (String c s) = String c s.
Proof.
  intros Hr Hs. cbn [PyStr.rstrip]. rewrite Hr. by destruct s.
Qed.

(** What [pretty] puts before a digit starts with a digit and has no
    white space at its end. *)
Lemma pretty_N_go_shape x d s :
  (d < 10)%N → PyStr.rstrip (String (pretty_N_char d) s) = String (pretty_N_char d) s →
  (∃ d' rest, (d' < 10)%N
     ∧ pretty_N_go x (String (pretty_N_char d) s) = String (pretty_N_char d') rest)
  ∧ PyStr.rstrip (pretty_N_go x (String (pretty_N_char d) s))
    = pretty_N_go x (String (pretty_N_char d) s).
Proof.
  revert d s. induction (N.lt_wf_0 x) as [x _ IH]; intros d s Hd Hr.
  destruct (decide (x = 0%N)) as [->|Hx].
  - rewrite pretty_N_go_0. split; [by exists d, s|done].
  - assert (0 < x)%N as Hpos by lia.
    assert (x `mod` 10 < 10)%N as Hmod by (apply N.mod_lt; lia).
    rewrite pretty_N_go_step by done.
    apply IH; [by apply N.div_lt|done|].
    by apply rstrip_cons.
Qed.

(** [int] reads what [pretty] writes. *)
Lemma int_pretty_N (n : N) : PyStr.int (pretty n) = Some (Z.of_N n).
Proof.
  unfold pretty, pretty_N. destruct (decide (n = 0%N)) as [->|Hn]; [done|].
  assert (0 < n)%N as Hpos by lia.
  assert (n `mod` 10 < 10)%N as Hmod by (apply N.mod_lt; lia).
  rewrite pretty_N_go_step by done.
  destruct (pretty_N_char_plain _ Hmod) as (Hsp & _).
  destruct (pretty_N_go_shape (n `div` 10) (n `mod` 10) "" Hmod)
    as [(d' & rest & Hd' & Hshape) Hrstrip].
  { cbn [PyStr.rstrip]. by rewrite Hsp. }
  destruct (pretty_N_char_plain _ Hd') as (Hsp' & Hplus & Hminus & _).
  unfold PyStr.int, PyStr.strip.
  assert (PyStr.lstrip (pretty_N_go (n `div` 10)
                          (String (pretty_N_char (n `mod` 10)) ""))
          = pretty_N_go (n `div` 10) (String (pretty_N_char (n `mod` 10)) ""))
    as ->.
  { rewrite Hshape. cbn [PyStr.lstrip]. by rewrite Hsp'. }
  rewrite Hrstrip. rewrite Hshape at 1.
  rewrite !bool_decide_eq_false_2 by done. rewrite <- Hshape.
  destruct (digits_pretty_N_go (n `div` 10) (n `mod` 10) "" Hmod)
    as (k & Hk & Hread).
  rewrite Hread. cbn [PyStr.digits].
  rewrite pretty_N_char_digit by done. f_equal.
  pose proof (N.div_mod n 10). lia.
Qed.

Lemma index_None x l : x ∉ l → PyStr.index x l = None.
Proof.
  induction l as [|y l IH]; [done|]. intros Hx.
  apply not_elem_of_cons in Hx as [Hne Hx]. simpl.
  rewrite decide_False by done. by rewrite IH.
Qed.

Section free_disk_bytes_theorems.
Variable run_df : string → df_run.
Variable decode : string → result string.

(** X19: when [df] writes nothing to a piped error stream and its output
    decodes to a text whose first line has the word "Available" as its
    field number [index] (fields being what white space separates) and
    whose second line has a decimal number [n] as its field number
    [index], [free_disk_bytes] is [n * 1024], whatever follows the second
    line. *)
Theorem free_disk_bytes_parses self output error header row rest index
    (n : N) :
  run_df (_work_dir self) = DfCommunicated output error →
  bytes_truthy error = false → output ≠ "" →
  decode output
  = Ok (header +:+ PyStr.newline +:+ row +:+ PyStr.newline +:+ rest) →
  PyStr.split_lines header = [header] → PyStr.split_lines row = [row] →
  PyStr.index "Available" (PyStr.split header) = Some index →
  PyStr.split row !! index = Some (pretty n) →
  free_disk_bytes run_df decode self = Some (Z.of_N n * 1024).
Proof.
  intros Hrun Herr Hout Hdec Hheader Hrow Hindex Hfield.
  unfold free_disk_bytes. rewrite Hrun, Herr, Hdec.
  assert (bytes_truthy (Some output) = true) as -> by by destruct output.
  rewrite (split_lines_first header) by done.
  rewrite (split_lines_first row) by done.
  simpl. rewrite Hindex. simpl. rewrite Hfield. simpl.
  by rewrite int_pretty_N.
Qed.

(** X20: [free_disk_bytes] answers [None] when running [df] raises, when
    [df] writes to a piped error stream, when it prints nothing, when its
    output does not decode, when the output is a single line, when the
    first line has no field "Available", and when the second line has
    too few fields to have one under "Available". *)
Theorem free_disk_bytes_None self :
  (∀ e, run_df (_work_dir self) = DfRaised e →
     free_disk_bytes run_df decode self = None)
  ∧ (∀ output error,
       run_df (_work_dir self) = DfCommunicated output error →
       bytes_truthy error = true ∨ output = "" ∨ raises (decode output) →
       free_disk_bytes run_df decode self = None)
  ∧ (∀ output error text,
       run_df (_work_dir self) = DfCommunicated output error →
       decode output = Ok text → PyStr.split_lines text = [text] →
       free_disk_bytes run_df decode self = None)
  ∧ (∀ output error header rest,
       run_df (_work_dir self) = DfCommunicated output error →
       decode output = Ok (header +:+ PyStr.newline +:+ rest) →
       PyStr.split_lines header = [header] →
       "Available" ∉ PyStr.split header →
       free_disk_bytes run_df decode self = None)
  ∧ (∀ output error header row rest index,
       run_df (_work_dir self) = DfCommunicated output error →
       decode output
       = Ok (header +:+ PyStr.newline +:+ row +:+ PyStr.newline +:+ rest) →
       PyStr.split_lines header = [header] → PyStr.split_lines row = [row] →
       PyStr.index "Available" (PyStr.split header) = Some index →
       (length (PyStr.split row) ≤ index)%nat →
       free_disk_bytes run_df decode self = None).
Proof.
  unfold free_disk_bytes. split; [by intros e ->|].
  split.
  { intros output error -> [Herr|[->|Hdec]].
    - by rewrite Herr.
    - by destruct (bytes_truthy error).
    - destruct (bytes_truthy error); [done|].
      destruct (bytes_truthy (Some output)); [|done].
      by destruct (decode output). }
  split.
  { intros output error text -> Hdec Hone. rewrite Hdec, Hone.
    destruct (bytes_truthy error); [done|].
    destruct (bytes_truthy (Some output)); [|done]. simpl.
    by destruct (PyStr.index _ _). }
  split.
  { intros output error header rest -> Hdec Hheader Hnone. rewrite Hdec.
    destruct (bytes_truthy error); [done|].
    destruct (bytes_truthy (Some output)); [|done].
    rewrite (split_lines_first header) by done. simpl.
    by rewrite index_None. }
  intros output error header row rest index -> Hdec Hheader Hrow Hindex Hshort.
  rewrite Hdec.
  destruct (bytes_truthy error); [done|].
  destruct (bytes_truthy (Some output)); [|done].
  rewrite (split_lines_first header) by done.
  rewrite (split_lines_first row) by done.
  simpl. rewrite Hindex. simpl. by rewrite lookup_ge_None_2.
Qed.
End free_disk_bytes_theorems.

Lemma free_disk_bytes_parses_witness :
  (sample_run_df (_work_dir node_ab) = DfCommunicated sample_df_output None
   ∧ bytes_truthy None = false ∧ sample_df_output ≠ ""
   ∧ PyStr.index "Available"
       (PyStr.split
          "Filesystem     1K-blocks    Used Available Use% Mounted on")
     = Some 3%nat
   ∧ PyStr.split "/dev/sda1       41152736 9275812  30098628  24% /" !! 3%nat
     = Some (pretty 30098628%N))
  ∧ free_disk_bytes sample_run_df sample_decode node_ab
    = Some (30098628 * 1024).
Proof.
  split; [by repeat split|].
  apply (free_disk_bytes_parses sample_run_df sample_decode node_ab
           sample_df_output None
           "Filesystem     1K-blocks    Used Available Use% Mounted on"
           "/dev/sda1       41152736 9275812  30098628  24% /" "" 3%nat
           30098628%N); try reflexivity; done.
Defined.
